(** * Account service: the HTTP route layer over the Account entity model

    Shallow embedding of [service/routes.py].  Every route handler is a
    computation in a small monad that threads the persistence store and a
    trace of the collaborator calls the handler performs, and that can stop
    early with an HTTP abort or a raised exception, the way the Flask code
    does.  The entity model ([service/models.py]) and the error handlers
    ([service/common/error_handlers.py]) are imported by the routes; they are
    modelled here from the service specification. *)

From stdpp Require Import base option list strings gmap pretty.
From Stdlib Require Import ZArith Lia Ascii String.

Local Open Scope string_scope.
Local Open Scope list_scope.
Local Open Scope Z_scope.

(** ** HTTP status codes *)

(** Modelled from the spec: the status constants of service/common/status.py
    that the routes name. *)
Module status.
Definition HTTP_200_OK : Z := 200.
Definition HTTP_201_CREATED : Z := 201.
Definition HTTP_204_NO_CONTENT : Z := 204.
Definition HTTP_400_BAD_REQUEST : Z := 400.
Definition HTTP_404_NOT_FOUND : Z := 404.
Definition HTTP_415_UNSUPPORTED_MEDIA_TYPE : Z := 415.
Definition HTTP_500_INTERNAL_SERVER_ERROR : Z := 500.
End status.

(** ** Calendar dates and their ISO-8601 form

    [date_joined] is a date value that crosses the HTTP boundary as an
    ISO-8601 string [YYYY-MM-DD]; this is Python's [datetime.date] as far as
    the entity model uses it. *)

Module date.

Record t := mk { year : Z; month : Z; day : Z }.

Definition is_leap (y : Z) : bool :=
  ((y mod 4 =? 0) && negb (y mod 100 =? 0) || (y mod 400 =? 0))%Z.

Definition days_in_month (y m : Z) : Z :=
  match m with
  | 2 => if is_leap y then 29 else 28
  | 4 | 6 | 9 | 11 => 30
  | _ => 31
  end.

Definition valid (d : t) : bool :=
  ((1 <=? year d) && (year d <=? 9999) &&
   (1 <=? month d) && (month d <=? 12) &&
   (1 <=? day d) && (day d <=? days_in_month (year d) (month d)))%Z.

Definition digit_char (n : Z) : ascii :=
  match n with
  | 0 => "0" | 1 => "1" | 2 => "2" | 3 => "3" | 4 => "4"
  | 5 => "5" | 6 => "6" | 7 => "7" | 8 => "8" | _ => "9"
  end%char.

Definition char_digit (c : ascii) : option Z :=
  (if decide (c = "0") then Some 0 else if decide (c = "1") then Some 1
   else if decide (c = "2") then Some 2 else if decide (c = "3") then Some 3
   else if decide (c = "4") then Some 4 else if decide (c = "5") then Some 5
   else if decide (c = "6") then Some 6 else if decide (c = "7") then Some 7
   else if decide (c = "8") then Some 8 else if decide (c = "9") then Some 9
   else None)%char.

Definition pad2 (n : Z) (rest : string) : string :=
  String (digit_char (n / 10 mod 10)) (String (digit_char (n mod 10)) rest).

Definition pad4 (n : Z) (rest : string) : string :=
  String (digit_char (n / 1000 mod 10))
    (String (digit_char (n / 100 mod 10)) (pad2 n rest)).

(** [date.isoformat()] *)
Definition isoformat (d : t) : string :=
  pad4 (year d) (String "-" (pad2 (month d) (String "-" (pad2 (day d) "")))).

Definition num2 (a b : ascii) : option Z :=
  x ← char_digit a; y ← char_digit b; Some (10 * x + y).

Definition num4 (a b c e : ascii) : option Z :=
  x ← num2 a b; y ← num2 c e; Some (100 * x + y).

(** [date.fromisoformat(s)]: [None] stands for the [ValueError] raised on
    a string that is not a calendar date written [YYYY-MM-DD]. *)
Definition fromisoformat (s : string) : option t :=
  match s with
  | String y1 (String y2 (String y3 (String y4 (String sep1
      (String m1 (String m2 (String sep2 (String d1 (String d2 ""))))))))) =>
      if decide (sep1 = "-"%char ∧ sep2 = "-"%char) then
        y ← num4 y1 y2 y3 y4;
        m ← num2 m1 m2;
        d ← num2 d1 d2;
        if valid (mk y m d) then Some (mk y m d) else None
      else None
  | _ => None
  end.

End date.

(** ** JSON data crossing the HTTP boundary *)

(** Values of the keys of a serialized Account. *)
Inductive jval :=
  | JNull
  | JNum (n : Z)
  | JStr (s : string).

(** What the JSON codec hands to the entity model for a request body: an
    object, read as a mapping from string keys to the string values it
    carries, or anything that is not an object ([detail] is the codec's
    account of what it found instead). *)
Inductive json :=
  | JObject (fields : gmap string string)
  | JOther (detail : string).

(** ** Exceptions and their propagation *)

Inductive exn :=
  | DataValidationError (message : string)
  | InternalError (message : string).

Inductive result (A : Type) :=
  | Ok (a : A)
  | Err (e : exn).
Arguments Ok {A} a.
Arguments Err {A} e.

Definition result_bind {A B} (r : result A) (k : A → result B) : result B :=
  match r with
  | Ok a => k a
  | Err e => Err e
  end.

Notation "'let?' x ':=' r 'in' k" := (result_bind r (λ x, k))
  (at level 10, x name, r at level 100, k at level 200).

(** ** The Account entity model *)

Module Account.

(** Modelled from the spec: the Account of service/models.py, with the
    six attributes of the data model; [id] is [None] until the store
    assigns one. *)
Record t := mk {
  id : option Z;
  name : string;
  email : string;
  address : string;
  phone_number : string;
  date_joined : date.t
}.

(** Modelled from the spec: [Account()] of service/models.py, a fresh
    instance that has no [id] yet; [date_joined] defaults to the creation
    date, and the four string fields wait for [deserialize]. *)
Definition new (today : date.t) : t :=
  mk None "" "" "" "" today.

(** Modelled from the spec: reading a required key in [deserialize]; a
    missing key fails, naming it. *)
Definition required (fields : gmap string string) (key : string) : result string :=
  match fields !! key with
  | Some v => Ok v
  | None => Err (DataValidationError ("Invalid Account: missing " +:+ key))
  end.

(** Modelled from the spec: [Account.deserialize] of service/models.py.
    The four required keys are read in the order name, email, address,
    phone_number; [date_joined] is optional and defaults to today's date;
    [id] is never taken from the body.  A body that is not an object is
    rejected.  The spec leaves a [date_joined] that is not an ISO date
    open: here it is an error other than a validation error. *)
Definition deserialize (today : date.t) (self : t) (data : json) : result t :=
  match data with
  | JObject fields =>
      let? n := required fields "name" in
      let? e := required fields "email" in
      let? a := required fields "address" in
      let? p := required fields "phone_number" in
      match fields !! "date_joined" with
      | None => Ok (mk (id self) n e a p today)
      | Some s =>
          match date.fromisoformat s with
          | Some d => Ok (mk (id self) n e a p d)
          | None => Err (InternalError ("Invalid isoformat string: " +:+ s))
          end
      end
  | JOther detail =>
      Err (DataValidationError
             ("Invalid Account: body of request contained bad or no data " +:+ detail))
  end.

(** Modelled from the spec: [Account.serialize] of service/models.py, a
    mapping with all six keys, [date_joined] as an ISO-8601 string. *)
Definition serialize (self : t) : gmap string jval :=
  <["id" := from_option JNum JNull (id self)]>
  (<["name" := JStr (name self)]>
  (<["email" := JStr (email self)]>
  (<["address" := JStr (address self)]>
  (<["phone_number" := JStr (phone_number self)]>
  (<["date_joined" := JStr (date.isoformat (date_joined self))]> ∅))))).

End Account.

(** ** The persistence store *)

(** Modelled from the spec: the table behind service/models.py, its rows in
    insertion order, keyed by an auto-increment [id] that is never reused. *)
Record Store := mkStore {
  rows : list Account.t;
  next_id : Z
}.

Definition empty_store : Store := mkStore [] 1.

Module db.

Definition has_id (i : Z) (a : Account.t) : bool :=
  bool_decide (Account.id a = Some i).

(** Modelled from the spec: [Account.find(id)] of service/models.py, the
    row with that id, or [None]. *)
Definition find (i : Z) (st : Store) : option Account.t :=
  head (filter (λ a, has_id i a = true) (rows st)).

(** Modelled from the spec: [Account.all()] of service/models.py, every
    row, in insertion order. *)
Definition all (st : Store) : list Account.t := rows st.

(** Modelled from the spec: [account.create()] of service/models.py,
    which assigns a new unique id and inserts one row. *)
Definition create (a : Account.t) (st : Store) : Account.t * Store :=
  let a' := Account.mk (Some (next_id st)) (Account.name a) (Account.email a)
              (Account.address a) (Account.phone_number a) (Account.date_joined a) in
  (a', mkStore (rows st ++ [a']) (next_id st + 1)).

(** Modelled from the spec: [account.update()] of service/models.py,
    which writes the fields over the row with the same id; [None] when
    there is no such row. *)
Definition update (a : Account.t) (st : Store) : option Store :=
  match Account.id a with
  | Some i =>
      match find i st with
      | Some _ =>
          Some (mkStore ((λ r, if has_id i r then a else r) <$> rows st) (next_id st))
      | None => None
      end
  | None => None
  end.

(** Modelled from the spec: [account.delete()] of service/models.py,
    which removes the row with this id. *)
Definition delete (a : Account.t) (st : Store) : Store :=
  match Account.id a with
  | Some i => mkStore (filter (λ r, has_id i r = false) (rows st)) (next_id st)
  | None => st
  end.

End db.

(** ** HTTP requests and responses, as the handlers see them *)

(** What decoding the body of a request gives when [request.get_json()]
    gets as far as decoding it: the decoded body, or the HTTP error with
    which the framework stops the request when it cannot decode one. *)
Inductive Decoded :=
  | Parsed (data : json)
  | Undecodable (code : Z) (description : string).

(** What the framework's [get_json()] does with a request whose Content-Type
    is not a JSON media type, before it looks at the body; which one it is
    depends on the framework's version. *)
Inductive NotJson :=
  | ReturnsNone
  | RaisesBadRequest
  | RaisesUnsupportedMediaType.

Record Request := mkRequest {
  headers : gmap string string;
  payload : Decoded
}.

Inductive Body :=
  | BJson (obj : gmap string jval)
  | BJsonList (items : list (gmap string jval))
  | BText (text : string).

Record Response := mkResponse {
  status_code : Z;
  body : Body;
  response_headers : gmap string string
}.

(** The collaborator calls a handler makes, in the order it makes them. *)
Inductive Event :=
  | ELog (level message : string)
  | EHeaderGet (name : string)
  | EGetJson
  | EFind (account_id : Z)
  | EAll
  | ECreate (account_id : Z)
  | EUpdate (account_id : Z)
  | EDelete (account_id : Z).

Global Instance Event_eq_dec : EqDecision Event.
Proof. solve_decision. Defined.

(** ** The handler monad *)

Record Ctx := mkCtx {
  request : Request;
  today : date.t;
  not_json : NotJson
}.

Record State := mkState {
  store : Store;
  trace : list Event
}.

Inductive Outcome (A : Type) :=
  | Return (a : A)
  | Abort (code : Z) (description : string)
  | Raise (e : exn).
Arguments Return {A} a.
Arguments Abort {A} code description.
Arguments Raise {A} e.

Definition M (A : Type) : Type := Ctx → State → Outcome A * State.

Global Instance M_ret : MRet M := λ A a _ s, (Return a, s).

Global Instance M_bind : MBind M := λ A B k m c s,
  match m c s with
  | (Return a, s') => k a c s'
  | (Abort code d, s') => (Abort code d, s')
  | (Raise e, s') => (Raise e, s')
  end.

(** [abort(code, description)] *)
Definition abort {A} (code : Z) (description : string) : M A :=
  λ _ s, (Abort code description, s).

Definition raise {A} (e : exn) : M A :=
  λ _ s, (Raise e, s).

Definition ask : M Ctx := λ c s, (Return c, s).

Definition get_store : M Store := λ _ s, (Return (store s), s).

Definition put_store (st : Store) : M unit :=
  λ _ s, (Return tt, mkState st (trace s)).

Definition emit (e : Event) : M unit :=
  λ _ s, (Return tt, mkState (store s) (trace s ++ [e])).

Definition lift_result {A} (r : result A) : M A :=
  match r with
  | Ok a => mret a
  | Err e => raise e
  end.

Module logger.
Definition info (message : string) : M unit := emit (ELog "INFO" message).
Definition error (message : string) : M unit := emit (ELog "ERROR" message).
Definition debug (message : string) : M unit := emit (ELog "DEBUG" message).
End logger.

(** [request.headers.get(name)] *)
Definition headers_get (name : string) : M (option string) :=
  emit (EHeaderGet name);;
  c ← ask;
  mret (headers (request c) !! name).

(** The media type of a Content-Type header, as [request.mimetype] gives
    it: what stands before the first semicolon, stripped and in lower case;
    empty when the header is missing. *)
Definition is_space (c : ascii) : bool :=
  let n := N_of_ascii c in
  ((9 <=? n) && (n <=? 13) || (28 <=? n) && (n <=? 32))%N.

Definition lower_char (c : ascii) : ascii :=
  let n := N_of_ascii c in
  if ((65 <=? n) && (n <=? 90))%N then ascii_of_N (n + 32) else c.

Fixpoint lower (s : string) : string :=
  match s with
  | EmptyString => EmptyString
  | String c s' => String (lower_char c) (lower s')
  end.

Fixpoint before_semicolon (s : string) : string :=
  match s with
  | EmptyString => EmptyString
  | String c s' =>
      if decide (c = ";"%char) then EmptyString
      else String c (before_semicolon s')
  end.

Fixpoint lstrip (s : string) : string :=
  match s with
  | EmptyString => EmptyString
  | String c s' => if is_space c then lstrip s' else s
  end.

Definition strip (s : string) : string :=
  String.rev (lstrip (String.rev (lstrip s))).

Definition startswith (s pre : string) : bool := String.prefix pre s.

Definition endswith (s suf : string) : bool :=
  String.prefix (String.rev suf) (String.rev s).

Definition mimetype (content_type : option string) : string :=
  lower (strip (before_semicolon (default "" content_type))).

(** [request.is_json] *)
Definition is_json (content_type : option string) : bool :=
  let mt := mimetype content_type in
  bool_decide (mt = "application/json") ||
  startswith mt "application/" && endswith mt "+json".

Definition not_json_description : string :=
  "Did not attempt to load JSON data because the request Content-Type was not 'application/json'.".

(** What [request.get_json()] answers: a request that is not JSON is turned
    away before its body is looked at; otherwise the body is decoded. *)
Definition get_json_answer (c : Ctx) : Outcome json :=
  if is_json (headers (request c) !! "Content-Type") then
    match payload (request c) with
    | Parsed data => Return data
    | Undecodable code description => Abort code description
    end
  else
    match not_json c with
    | ReturnsNone => Return (JOther "'NoneType' object is not subscriptable")
    | RaisesBadRequest =>
        Abort status.HTTP_400_BAD_REQUEST not_json_description
    | RaisesUnsupportedMediaType =>
        Abort status.HTTP_415_UNSUPPORTED_MEDIA_TYPE not_json_description
    end.

(** [request.get_json()] *)
Definition get_json : M json :=
  emit EGetJson;;
  c ← ask;
  match get_json_answer c with
  | Return data => mret data
  | Abort code description => abort code description
  | Raise e => raise e
  end.

(** The entity model's operations, run against the store. *)

Definition Account_new : M Account.t :=
  c ← ask;
  mret (Account.new (today c)).

Definition Account_deserialize (self : Account.t) (data : json) : M Account.t :=
  c ← ask;
  lift_result (Account.deserialize (today c) self data).

Definition Account_find (account_id : Z) : M (option Account.t) :=
  emit (EFind account_id);;
  st ← get_store;
  mret (db.find account_id st).

Definition Account_all : M (list Account.t) :=
  emit EAll;;
  st ← get_store;
  mret (db.all st).

Definition Account_create (self : Account.t) : M Account.t :=
  st ← get_store;
  let '(a, st') := db.create self st in
  emit (ECreate (default 0 (Account.id a)));;
  put_store st';;
  mret a.

Definition Account_update (self : Account.t) : M unit :=
  st ← get_store;
  match db.update self st with
  | Some st' => emit (EUpdate (default 0 (Account.id self)));; put_store st'
  | None => raise (InternalError "no row to update")
  end.

Definition Account_delete (self : Account.t) : M unit :=
  st ← get_store;
  emit (EDelete (default 0 (Account.id self)));;
  put_store (db.delete self st).

(** ** service/routes.py *)

(** Python truthiness of [request.headers.get(...)]: [None] and the empty
    string are falsy. *)
Definition truthy (v : option string) : bool :=
  match v with
  | Some s => negb (bool_decide (s = ""))
  | None => false
  end.

(** [str(v)] for the value logged by [check_content_type]. *)
Definition str_opt (v : option string) : string := default "None" v.

(** [((body, status))] and [make_response(body, status, headers)] *)
Definition respond (b : Body) (code : Z) : M Response :=
  mret (mkResponse code b ∅).

Definition make_response (b : Body) (code : Z) (hs : gmap string string)
  : M Response :=
  mret (mkResponse code b hs).

(** Checks that the media type is correct *)
Definition check_content_type (media_type : string) : M unit :=
  content_type ← headers_get "Content-Type";
  if truthy content_type && bool_decide (content_type = Some media_type)
  then mret tt
  else
    logger.error ("Invalid Content-Type: " +:+ str_opt content_type);;
    abort status.HTTP_415_UNSUPPORTED_MEDIA_TYPE
      ("Content-Type must be " +:+ media_type).

(** Health Status *)
Definition health : M Response :=
  respond (BJson {["status" := JStr "OK"]}) status.HTTP_200_OK.

(** Root URL response *)
Definition index : M Response :=
  respond
    (BJson (<["name" := JStr "Account REST API Service"]>
            (<["version" := JStr "1.0"]> ∅)))
    status.HTTP_200_OK.

(** Creates an Account *)
Definition create_accounts : M Response :=
  logger.info "Request to create an Account";;
  check_content_type "application/json";;
  account ← Account_new;
  data ← get_json;
  account ← Account_deserialize account data;
  account ← Account_create account;
  let message := Account.serialize account in
  let location_url := "/" in
  make_response (BJson message) status.HTTP_201_CREATED
    {["Location" := location_url]}.

(** List all accounts *)
Definition list_accounts : M Response :=
  logger.info "Request to list all Accounts";;
  accounts ← Account_all;
  let results := Account.serialize <$> accounts in
  respond (BJsonList results) status.HTTP_200_OK.

(** Reads an Account *)
Definition get_account (account_id : Z) : M Response :=
  logger.info ("Request to read Account with id: " +:+ pretty account_id);;
  account ← Account_find account_id;
  match account with
  | None =>
      abort status.HTTP_404_NOT_FOUND
        ("Account with id [" +:+ pretty account_id +:+ "] could not be found.")
  | Some account =>
      respond (BJson (Account.serialize account)) status.HTTP_200_OK
  end.

(** It should update an account by its ID *)
Definition update_account (account_id : Z) : M Response :=
  logger.info ("Request to update Account with id: " +:+ pretty account_id);;
  account ← Account_find account_id;
  match account with
  | None =>
      logger.error ("Account with id " +:+ pretty account_id +:+ " not found.");;
      abort status.HTTP_404_NOT_FOUND
        ("Account with id " +:+ pretty account_id +:+ " not found")
  | Some account =>
      logger.debug "Account found. Attempting to update.";;
      data ← get_json;
      account ← Account_deserialize account data;
      Account_update account;;
      logger.info ("Account with id " +:+ pretty account_id +:+ " updated successfully.");;
      respond (BJson (Account.serialize account)) status.HTTP_200_OK
  end.

(** It should delete an account by its ID *)
Definition delete_account (account_id : Z) : M Response :=
  logger.info ("Request to delete Account with id: " +:+ pretty account_id);;
  account ← Account_find account_id;
  match account with
  | None => respond (BText "") status.HTTP_204_NO_CONTENT
  | Some account =>
      Account_delete account;;
      respond (BText "") status.HTTP_204_NO_CONTENT
  end.

(** ** The boundary: routing and error rendering *)

Inductive Endpoint :=
  | GET_health
  | GET_index
  | POST_accounts
  | GET_accounts
  | GET_account (account_id : Z)
  | PUT_account (account_id : Z)
  | DELETE_account (account_id : Z).

Definition view (ep : Endpoint) : M Response :=
  match ep with
  | GET_health => health
  | GET_index => index
  | POST_accounts => create_accounts
  | GET_accounts => list_accounts
  | GET_account i => get_account i
  | PUT_account i => update_account i
  | DELETE_account i => delete_account i
  end.

(** Modelled from the spec: the [error] name in an error body, as in
    [{message, error: "Not Found", status: 404}]. *)
Definition reason (code : Z) : string :=
  match code with
  | 400 => "Bad Request"
  | 404 => "Not Found"
  | 415 => "Unsupported Media Type"
  | _ => "Internal Server Error"
  end.

(** Modelled from the spec: the error handlers of
    service/common/error_handlers.py.  An HTTP abort becomes a response with
    its status and a [{status, error, message}] body; a
    [DataValidationError] becomes a 400 whose body text is the error's
    message; any other exception is the framework's generic server error. *)
Definition render {A} (o : Outcome A) (ok : A → Response) : Response :=
  match o with
  | Return a => ok a
  | Abort code description =>
      mkResponse code
        (BJson (<["status" := JNum code]>
                (<["error" := JStr (reason code)]>
                (<["message" := JStr description]> ∅)))) ∅
  | Raise (DataValidationError message) =>
      mkResponse status.HTTP_400_BAD_REQUEST (BText message) ∅
  | Raise (InternalError message) =>
      mkResponse status.HTTP_500_INTERNAL_SERVER_ERROR (BText message) ∅
  end.

(** One request, served against a store: the response, the store left
    behind, and the calls made on the way. *)
Definition run {A} (m : M A) (c : Ctx) (st : Store) : Outcome A * State :=
  m c (mkState st []).

Definition serve (ep : Endpoint) (c : Ctx) (st : Store)
  : Response * Store * list Event :=
  let '(o, s) := run (view ep) c st in
  (render o id, store s, trace s).

Definition response_of (ep : Endpoint) (c : Ctx) (st : Store) : Response :=
  (serve ep c st).1.1.

Definition store_after (ep : Endpoint) (c : Ctx) (st : Store) : Store :=
  (serve ep c st).1.2.

Definition calls_of (ep : Endpoint) (c : Ctx) (st : Store) : list Event :=
  (serve ep c st).2.

(** The message carried by an error response. *)
Definition message_of (r : Response) : option string :=
  match body r with
  | BJson obj =>
      match obj !! "message" with
      | Some (JStr m) => Some m
      | _ => None
      end
  | BText t => Some t
  | BJsonList _ => None
  end.

(** ** Vocabulary of the statements *)

(** The request carries exactly the JSON media type. *)
Definition json_media_type (c : Ctx) : Prop :=
  headers (request c) !! "Content-Type" = Some "application/json".

Global Instance json_media_type_dec c : Decision (json_media_type c).
Proof. unfold json_media_type. apply _. Defined.

(** The keys [deserialize] insists on. *)
Definition required_fields : list string :=
  ["name"; "email"; "address"; "phone_number"].

(** The write endpoints. *)
Definition is_write (ep : Endpoint) : bool :=
  match ep with
  | POST_accounts | PUT_account _ => true
  | _ => false
  end.

(** ** Sample data *)

Definition sample_fields : gmap string string :=
  <["name" := "Ann Lee"]>
  (<["email" := "ann@example.com"]>
  (<["address" := "1 Main St"]>
  (<["phone_number" := "555-0100"]>
  (<["date_joined" := "2024-02-29"]> ∅)))).

Definition sample_account : Account.t :=
  Account.mk None "Ann Lee" "ann@example.com" "1 Main St" "555-0100"
    (date.mk 2024 2 29).

Definition sample_today : date.t := date.mk 2025 1 2.

Definition sample_ctx (content_type : option string) (p : Decoded) : Ctx :=
  mkCtx
    (mkRequest
       (match content_type with
        | Some v => {["Content-Type" := v]}
        | None => ∅
        end) p)
    sample_today RaisesBadRequest.

Definition sample_store : Store :=
  store_after POST_accounts
    (sample_ctx (Some "application/json") (Parsed (JObject sample_fields)))
    empty_store.

(** ** Further vocabulary: endpoints that only read, well-formed stores *)

(** The endpoints served by GET. *)
Definition is_read (ep : Endpoint) : bool :=
  match ep with
  | GET_health | GET_index | GET_accounts | GET_account _ => true
  | _ => false
  end.

Definition assigned_below (n : Z) (a : Account.t) : bool :=
  match Account.id a with
  | Some i => bool_decide (i < n)
  | None => false
  end.

(** The row has an id, handed out before [n]. *)
Definition id_below (n : Z) (a : Account.t) : Prop :=
  ∃ i, Account.id a = Some i ∧ i < n.

(** A store as the service leaves it: no two rows share an id, and every
    row's id was handed out before [next_id]. *)
Definition store_ok (st : Store) : bool :=
  bool_decide (NoDup (Account.id <$> rows st)) &&
  forallb (assigned_below (next_id st)) (rows st).

(** ** tests/test_routes.py: the test client and the bulk helper *)

Definition str_of (v : jval) : option string :=
  match v with
  | JStr s => Some s
  | _ => None
  end.

(** A mapping sent with [json=...], as the codec hands it back to the
    service: its string-valued keys. *)
Definition as_body (obj : gmap string jval) : json :=
  JObject (omap str_of obj).

(** The request made by [self.client.post(url, json=obj)] or
    [self.client.put(url, json=obj)]: the test client sets the JSON media
    type itself. *)
Definition client_json (now : date.t) (obj : gmap string jval) : Ctx :=
  mkCtx
    (mkRequest {["Content-Type" := "application/json"]} (Parsed (as_body obj)))
    now RaisesBadRequest.

(** [account.id = new_account["id"]] *)
Definition set_id (v : jval) (account : Account.t) : option Account.t :=
  match v with
  | JNum i =>
      Some (Account.mk (Some i) (Account.name account) (Account.email account)
              (Account.address account) (Account.phone_number account)
              (Account.date_joined account))
  | JNull =>
      Some (Account.mk None (Account.name account) (Account.email account)
              (Account.address account) (Account.phone_number account)
              (Account.date_joined account))
  | JStr _ => None
  end.

(** Factory method to create accounts in bulk.  [made] holds what the
    [count] calls of [AccountFactory()] return; [None] is a failed
    assertion or a missing key. *)
Fixpoint _create_accounts (now : date.t) (made : list Account.t) (st : Store)
  : option (list Account.t * Store) :=
  match made with
  | [] => Some ([], st)
  | account :: made' =>
      let c := client_json now (Account.serialize account) in
      let response := response_of POST_accounts c st in
      if bool_decide (status_code response = status.HTTP_201_CREATED) then
        match body response with
        | BJson new_account =>
            v ← new_account !! "id";
            account' ← set_id v account;
            '(accounts, st') ←
              _create_accounts now made' (store_after POST_accounts c st);
            Some (account' :: accounts, st')
        | _ => None
        end
      else None
  end.

(** The account with its id set to [i]. *)
Definition with_id (i : Z) (account : Account.t) : Account.t :=
  Account.mk (Some i) (Account.name account) (Account.email account)
    (Account.address account) (Account.phone_number account)
    (Account.date_joined account).

(** The accounts with consecutive ids from [n] on. *)
Fixpoint assign_ids (n : Z) (made : list Account.t) : list Account.t :=
  match made with
  | [] => []
  | account :: made' => with_id n account :: assign_ids (n + 1) made'
  end.

(** The account's [date_joined] is a calendar date. *)
Definition dated (account : Account.t) : bool :=
  date.valid (Account.date_joined account).

(** * Properties *)

(** ** Running handlers step by step *)

Section run_lemmas.
Context {A B : Type}.
Implicit Types (c : Ctx) (s : State).

Lemma bind_return (m : M A) (k : A → M B) c s a s' :
  m c s = (Return a, s') → (m ≫= k) c s = k a c s'.
Proof. intros H. unfold mbind, M_bind. by rewrite H. Qed.

Lemma bind_abort (m : M A) (k : A → M B) c s code d s' :
  m c s = (Abort code d, s') → (m ≫= k) c s = (Abort code d, s').
Proof. intros H. unfold mbind, M_bind. by rewrite H. Qed.

Lemma bind_raise (m : M A) (k : A → M B) c s e s' :
  m c s = (Raise e, s') → (m ≫= k) c s = (Raise e, s').
Proof. intros H. unfold mbind, M_bind. by rewrite H. Qed.
End run_lemmas.

Lemma emit_run e c s :
  emit e c s = (Return tt, mkState (store s) (trace s ++ [e])).
Proof. done. Qed.

Lemma headers_get_run name c s :
  headers_get name c s =
  (Return (headers (request c) !! name),
   mkState (store s) (trace s ++ [EHeaderGet name])).
Proof. done. Qed.

Lemma Account_find_run i c s :
  Account_find i c s =
  (Return (db.find i (store s)), mkState (store s) (trace s ++ [EFind i])).
Proof. done. Qed.

Lemma get_json_run c s :
  get_json c s =
  (get_json_answer c, mkState (store s) (trace s ++ [EGetJson])).
Proof.
  unfold get_json. erewrite bind_return by apply emit_run.
  erewrite bind_return by reflexivity.
  by destruct (get_json_answer c).
Qed.

(** A request that carries exactly the JSON media type is decoded. *)
Lemma get_json_answer_exact c :
  headers (request c) !! "Content-Type" = Some "application/json" →
  get_json_answer c =
  match payload (request c) with
  | Parsed data => Return data
  | Undecodable code d => Abort code d
  end.
Proof. intros H. unfold get_json_answer. by rewrite H. Qed.

(** So is every request whose media type the framework takes for JSON. *)
Lemma get_json_answer_json c :
  is_json (headers (request c) !! "Content-Type") = true →
  get_json_answer c =
  match payload (request c) with
  | Parsed data => Return data
  | Undecodable code d => Abort code d
  end.
Proof. intros H. unfold get_json_answer. by rewrite H. Qed.

(** A request that is not JSON never gets a decoded body out of
    [get_json()]: it is stopped with 400 or 415, or handed [None]. *)
Lemma get_json_answer_not_json c :
  is_json (headers (request c) !! "Content-Type") = false →
  get_json_answer c =
  match not_json c with
  | ReturnsNone => Return (JOther "'NoneType' object is not subscriptable")
  | RaisesBadRequest =>
      Abort status.HTTP_400_BAD_REQUEST not_json_description
  | RaisesUnsupportedMediaType =>
      Abort status.HTTP_415_UNSUPPORTED_MEDIA_TYPE not_json_description
  end.
Proof. intros H. unfold get_json_answer. by rewrite H. Qed.

(** The media type gate, on its own. *)
Lemma check_content_type_run media_type c s :
  check_content_type media_type c s =
  let v := headers (request c) !! "Content-Type" in
  if decide (v = Some media_type ∧ media_type ≠ "")
  then (Return tt, mkState (store s) (trace s ++ [EHeaderGet "Content-Type"]))
  else (Abort status.HTTP_415_UNSUPPORTED_MEDIA_TYPE
          ("Content-Type must be " +:+ media_type),
        mkState (store s)
          (trace s ++ [EHeaderGet "Content-Type";
                       ELog "ERROR" ("Invalid Content-Type: " +:+ str_opt v)])).
Proof.
  unfold check_content_type.
  erewrite bind_return by apply headers_get_run.
  cbv zeta. generalize (headers (request c) !! "Content-Type"). intros v.
  destruct (decide (v = Some media_type ∧ media_type ≠ "")) as [[-> Hne]|Hd].
  - simpl. rewrite (bool_decide_eq_false_2 _ Hne).
    by rewrite bool_decide_eq_true_2.
  - assert (truthy v && bool_decide (v = Some media_type) = false) as ->.
    { destruct v as [x|]; [simpl|done].
      repeat case_bool_decide; simplify_eq; try done.
      exfalso. by apply Hd. }
    unfold logger.error. erewrite bind_return by apply emit_run.
    simpl. by rewrite <- app_assoc.
Qed.

(** ** What each handler does, case by case *)

Lemma create_accounts_run c st :
  run create_accounts c st =
  let log := ELog "INFO" "Request to create an Account" in
  let hdr := EHeaderGet "Content-Type" in
  if decide (json_media_type c) then
    match payload (request c) with
    | Undecodable code d => (Abort code d, mkState st [log; hdr; EGetJson])
    | Parsed data =>
        match Account.deserialize (today c) (Account.new (today c)) data with
        | Err e => (Raise e, mkState st [log; hdr; EGetJson])
        | Ok acct =>
            (Return (mkResponse status.HTTP_201_CREATED
                       (BJson (Account.serialize (db.create acct st).1))
                       {["Location" := "/"]}),
             mkState (db.create acct st).2
               [log; hdr; EGetJson; ECreate (next_id st)])
        end
    end
  else
    (Abort status.HTTP_415_UNSUPPORTED_MEDIA_TYPE
       "Content-Type must be application/json",
     mkState st
       [log; hdr;
        ELog "ERROR" ("Invalid Content-Type: " +:+
                      str_opt (headers (request c) !! "Content-Type"))]).
Proof.
  unfold run, create_accounts, logger.info.
  erewrite bind_return by apply emit_run.
  cbv zeta. unfold json_media_type.
  pose proof (check_content_type_run "application/json" c
                (mkState st ([] ++ [ELog "INFO" "Request to create an Account"])))
    as Hgate.
  cbv zeta in Hgate.
  destruct (decide (headers (request c) !! "Content-Type" = Some "application/json"))
    as [Hct|Hct].
  - rewrite decide_True in Hgate by done.
    erewrite bind_return by apply Hgate.
    unfold Account_new. erewrite bind_return by reflexivity.
    pose proof (get_json_run c
      (mkState st (([] ++ [ELog "INFO" "Request to create an Account"]) ++
                   [EHeaderGet "Content-Type"]))) as Hjson.
    rewrite (get_json_answer_exact c Hct) in Hjson.
    destruct (payload (request c)) as [data|code d].
    + erewrite bind_return by apply Hjson.
      unfold Account_deserialize.
      destruct (Account.deserialize (today c) (Account.new (today c)) data)
        as [acct|e] eqn:Hde.
      * erewrite bind_return; [|unfold mbind, M_bind, ask; rewrite Hde; reflexivity].
        reflexivity.
      * erewrite bind_raise; [|unfold mbind, M_bind, ask; rewrite Hde; reflexivity].
        reflexivity.
    + erewrite bind_abort by apply Hjson. reflexivity.
  - rewrite decide_False in Hgate by (intros [? _]; done).
    erewrite bind_abort by apply Hgate. reflexivity.
Qed.

Lemma list_accounts_run c st :
  run list_accounts c st =
  (Return (mkResponse status.HTTP_200_OK
             (BJsonList (Account.serialize <$> rows st)) ∅),
   mkState st [ELog "INFO" "Request to list all Accounts"; EAll]).
Proof. reflexivity. Qed.

Lemma get_account_run i c st :
  run (get_account i) c st =
  (match db.find i st with
   | Some a =>
       Return (mkResponse status.HTTP_200_OK (BJson (Account.serialize a)) ∅)
   | None =>
       Abort status.HTTP_404_NOT_FOUND
         ("Account with id [" +:+ pretty i +:+ "] could not be found.")
   end,
   mkState st [ELog "INFO" ("Request to read Account with id: " +:+ pretty i);
               EFind i]).
Proof.
  unfold run, get_account, logger.info.
  erewrite bind_return by apply emit_run.
  erewrite bind_return by apply Account_find_run.
  simpl. by destruct (db.find i st).
Qed.

Lemma delete_account_run i c st :
  run (delete_account i) c st =
  let log := ELog "INFO" ("Request to delete Account with id: " +:+ pretty i) in
  (Return (mkResponse status.HTTP_204_NO_CONTENT (BText "") ∅),
   match db.find i st with
   | Some a =>
       mkState (db.delete a st)
         [log; EFind i; EDelete (default 0 (Account.id a))]
   | None => mkState st [log; EFind i]
   end).
Proof.
  unfold run, delete_account, logger.info.
  erewrite bind_return by apply emit_run.
  erewrite bind_return by apply Account_find_run.
  simpl. by destruct (db.find i st).
Qed.

Lemma update_account_missing_run i c st :
  db.find i st = None →
  run (update_account i) c st =
  (Abort status.HTTP_404_NOT_FOUND ("Account with id " +:+ pretty i +:+ " not found"),
   mkState st
     [ELog "INFO" ("Request to update Account with id: " +:+ pretty i);
      EFind i;
      ELog "ERROR" ("Account with id " +:+ pretty i +:+ " not found.")]).
Proof.
  intros Hfind. unfold run, update_account, logger.info.
  erewrite bind_return by apply emit_run.
  erewrite bind_return by apply Account_find_run.
  cbn [store]. rewrite Hfind. reflexivity.
Qed.

Lemma update_account_found_run i a c st :
  db.find i st = Some a →
  run (update_account i) c st =
  let pre :=
    [ELog "INFO" ("Request to update Account with id: " +:+ pretty i);
     EFind i;
     ELog "DEBUG" "Account found. Attempting to update.";
     EGetJson] in
  match get_json_answer c with
  | Abort code d => (Abort code d, mkState st pre)
  | Raise e => (Raise e, mkState st pre)
  | Return data =>
      match Account.deserialize (today c) a data with
      | Err e => (Raise e, mkState st pre)
      | Ok a' =>
          match db.update a' st with
          | Some st' =>
              (Return (mkResponse status.HTTP_200_OK
                         (BJson (Account.serialize a')) ∅),
               mkState st'
                 (pre ++
                  [EUpdate (default 0 (Account.id a'));
                   ELog "INFO" ("Account with id " +:+ pretty i +:+
                                " updated successfully.")]))
          | None => (Raise (InternalError "no row to update"), mkState st pre)
          end
      end
  end.
Proof.
  intros Hfind. unfold run, update_account, logger.info, logger.debug.
  erewrite bind_return by apply emit_run.
  erewrite bind_return by apply Account_find_run.
  cbn [store]. rewrite Hfind.
  erewrite bind_return by apply emit_run.
  cbv zeta.
  match goal with
  | |- (get_json ≫= _) c ?s = _ => pose proof (get_json_run c s) as Hjson
  end.
  destruct (get_json_answer c) as [data|code d|e].
  - erewrite bind_return by apply Hjson.
    unfold Account_deserialize.
    destruct (Account.deserialize (today c) a data) as [a'|e] eqn:Hde.
    + erewrite bind_return; [|unfold mbind, M_bind, ask; rewrite Hde; reflexivity].
      unfold Account_update, mbind, M_bind, get_store. simpl.
      destruct (db.update a' st); reflexivity.
    + erewrite bind_raise; [|unfold mbind, M_bind, ask; rewrite Hde; reflexivity].
      reflexivity.
  - erewrite bind_abort by apply Hjson. reflexivity.
  - erewrite bind_raise by apply Hjson. reflexivity.
Qed.

(** ** The store *)

Lemma find_Some_id i st a : db.find i st = Some a → Account.id a = Some i.
Proof.
  unfold db.find. intros H%head_Some_elem_of.
  apply list_elem_of_filter in H as [H _].
  unfold db.has_id in H. by apply bool_decide_eq_true in H.
Qed.

Lemma find_Some_elem_of i st a : db.find i st = Some a → a ∈ rows st.
Proof.
  unfold db.find. intros H%head_Some_elem_of.
  by apply list_elem_of_filter in H as [_ H].
Qed.

Lemma find_None i st :
  db.find i st = None ↔ ∀ a, a ∈ rows st → Account.id a ≠ Some i.
Proof.
  unfold db.find. rewrite head_None. split.
  - intros H a Ha Hid. assert (a ∉ rows st) as Hn; [|done].
    refine (filter_nil_not_elem_of _ _ a H _).
    unfold db.has_id. by apply bool_decide_eq_true.
  - intros H. destruct (filter _ _) as [|a l] eqn:Hf; [done|].
    assert (a ∈ filter (λ a, db.has_id i a = true) (rows st)) as Ha
      by (rewrite Hf; left).
    apply list_elem_of_filter in Ha as [Hid Ha].
    exfalso. apply (H a Ha). unfold db.has_id in Hid.
    by apply bool_decide_eq_true in Hid.
Qed.

(** After [delete], no row has the deleted id. *)
Lemma find_delete i a st :
  Account.id a = Some i → db.find i (db.delete a st) = None.
Proof.
  intros Hid. apply find_None. unfold db.delete. rewrite Hid. simpl.
  intros r Hr%list_elem_of_filter Hrid. destruct Hr as [Hr _].
  unfold db.has_id in Hr. apply bool_decide_eq_false in Hr. done.
Qed.

(** [delete] keeps the rows of every other id. *)
Lemma find_delete_ne i j a st :
  Account.id a = Some i → i ≠ j → db.find j (db.delete a st) = db.find j st.
Proof.
  intros Hid Hne. unfold db.delete, db.find. rewrite Hid. simpl.
  f_equal. rewrite list_filter_filter. apply list_filter_iff.
  intros r. split; [by intros [? _]|]. intros Hr. split; [done|].
  unfold db.has_id in *. apply bool_decide_eq_true in Hr.
  apply bool_decide_eq_false. congruence.
Qed.

(** [create] appends one row, which carries the next id. *)
Lemma create_rows a st :
  rows (db.create a st).2 = (rows st ++ [(db.create a st).1])%list.
Proof. reflexivity. Qed.

Lemma create_id a st : Account.id (db.create a st).1 = Some (next_id st).
Proof. reflexivity. Qed.

(** ** ISO dates: printing and parsing are inverse *)

Lemma char_digit_Some c n :
  date.char_digit c = Some n → date.digit_char n = c ∧ 0 ≤ n ≤ 9.
Proof.
  unfold date.char_digit. intros H.
  repeat case_decide; simplify_eq; (split; [reflexivity|lia]).
Qed.

Lemma digit_char_digit n :
  0 ≤ n ≤ 9 → date.char_digit (date.digit_char n) = Some n.
Proof.
  intros Hn.
  assert (n = 0 ∨ n = 1 ∨ n = 2 ∨ n = 3 ∨ n = 4 ∨
          n = 5 ∨ n = 6 ∨ n = 7 ∨ n = 8 ∨ n = 9) as Hc by lia.
  repeat destruct Hc as [->|Hc]; try subst n; reflexivity.
Qed.

Lemma num2_Some a b n rest :
  date.num2 a b = Some n →
  date.pad2 n rest = String a (String b rest) ∧ 0 ≤ n < 100.
Proof.
  unfold date.num2. intros H.
  destruct (date.char_digit a) as [x|] eqn:Hx; [|done].
  destruct (date.char_digit b) as [y|] eqn:Hy; [|done].
  simpl in H. simplify_eq.
  apply char_digit_Some in Hx as [<- Hx], Hy as [<- Hy].
  unfold date.pad2.
  assert ((10 * x + y) / 10 mod 10 = x) as -> by (Z.div_mod_to_equations; lia).
  assert ((10 * x + y) mod 10 = y) as -> by (Z.div_mod_to_equations; lia).
  split; [reflexivity|lia].
Qed.

Lemma num2_digits n :
  0 ≤ n < 100 →
  date.num2 (date.digit_char (n / 10 mod 10)) (date.digit_char (n mod 10)) = Some n.
Proof.
  intros Hn. unfold date.num2.
  rewrite !digit_char_digit by (Z.div_mod_to_equations; lia).
  simpl. f_equal. Z.div_mod_to_equations; lia.
Qed.

Lemma num4_digits n :
  0 ≤ n < 10000 →
  date.num4 (date.digit_char (n / 1000 mod 10)) (date.digit_char (n / 100 mod 10))
    (date.digit_char (n / 10 mod 10)) (date.digit_char (n mod 10)) = Some n.
Proof.
  intros Hn. unfold date.num4.
  assert (n / 1000 mod 10 = (n / 100) / 10 mod 10) as ->
    by (Z.div_mod_to_equations; lia).
  rewrite (num2_digits (n / 100)) by (Z.div_mod_to_equations; lia).
  assert (n / 10 mod 10 = (n mod 100) / 10 mod 10) as ->
    by (Z.div_mod_to_equations; lia).
  assert (n mod 10 = (n mod 100) mod 10) as ->
    by (Z.div_mod_to_equations; lia).
  rewrite (num2_digits (n mod 100)) by (Z.div_mod_to_equations; lia).
  simpl. f_equal. Z.div_mod_to_equations; lia.
Qed.

Lemma num4_Some a b c e n rest :
  date.num4 a b c e = Some n →
  date.pad4 n rest = String a (String b (String c (String e rest))) ∧
  0 ≤ n < 10000.
Proof.
  unfold date.num4. intros H.
  destruct (date.num2 a b) as [x|] eqn:Hx; [|done].
  destruct (date.num2 c e) as [y|] eqn:Hy; [|done].
  simpl in H. simplify_eq.
  apply (num2_Some _ _ _ (String c (String e rest))) in Hx as [Hx Hxr].
  apply (num2_Some _ _ _ rest) in Hy as [Hy Hyr].
  unfold date.pad4. split; [|lia].
  assert (date.pad2 (100 * x + y) rest = date.pad2 y rest) as ->.
  { unfold date.pad2. f_equal; [|f_equal]; f_equal;
      Z.div_mod_to_equations; lia. }
  rewrite Hy. unfold date.pad2 in Hx. simplify_eq.
  f_equal; [|f_equal]; f_equal; Z.div_mod_to_equations; lia.
Qed.

(** Parsing accepts only the canonical form, so printing gives it back. *)
Lemma isoformat_fromisoformat s d :
  date.fromisoformat s = Some d → date.isoformat d = s.
Proof.
  unfold date.fromisoformat. intros H.
  destruct s as [|y1 s]; [done|]. destruct s as [|y2 s]; [done|].
  destruct s as [|y3 s]; [done|]. destruct s as [|y4 s]; [done|].
  destruct s as [|sep1 s]; [done|].
  destruct s as [|m1 s]; [done|]. destruct s as [|m2 s]; [done|].
  destruct s as [|sep2 s]; [done|].
  destruct s as [|d1 s]; [done|]. destruct s as [|d2 s]; [done|].
  destruct s; [|done].
  case_decide as Hsep; [|done]. destruct Hsep as [-> ->].
  destruct (date.num4 y1 y2 y3 y4) as [y|] eqn:Hy; [|done].
  destruct (date.num2 m1 m2) as [m|] eqn:Hm; [|done].
  destruct (date.num2 d1 d2) as [dd|] eqn:Hd; [|done].
  simpl in H. destruct (date.valid _); [|done]. simplify_eq.
  unfold date.isoformat. simpl.
  eapply num4_Some in Hy as [-> _].
  eapply num2_Some in Hm as [-> _].
  eapply num2_Some in Hd as [-> _].
  reflexivity.
Qed.

(** Every calendar date survives printing and parsing. *)
Lemma fromisoformat_isoformat d :
  date.valid d = true → date.fromisoformat (date.isoformat d) = Some d.
Proof.
  intros Hv. destruct d as [y m dd].
  unfold date.isoformat, date.pad4, date.pad2, date.fromisoformat.
  cbn [date.year date.month date.day].
  rewrite decide_True by done.
  pose proof Hv as Hb. unfold date.valid in Hb.
  cbn [date.year date.month date.day] in Hb.
  repeat (apply andb_prop in Hb as [Hb ?]).
  assert (date.days_in_month y m ≤ 31).
  { unfold date.days_in_month. repeat case_match; lia. }
  rewrite num4_digits by lia.
  rewrite !num2_digits by lia.
  simpl. by rewrite Hv.
Qed.

(** ** Deserialization *)

Lemma required_Some fields key v :
  fields !! key = Some v → Account.required fields key = Ok v.
Proof. intros H. unfold Account.required. by rewrite H. Qed.

Lemma required_None fields key :
  fields !! key = None →
  Account.required fields key =
  Err (DataValidationError ("Invalid Account: missing " +:+ key)).
Proof. intros H. unfold Account.required. by rewrite H. Qed.

(** A missing required key is reported by name: the first one missing in
    reading order. *)
Lemma deserialize_missing today self fields key :
  key ∈ required_fields → fields !! key = None →
  ∃ k, k ∈ required_fields ∧ fields !! k = None ∧
       Account.deserialize today self (JObject fields) =
       Err (DataValidationError ("Invalid Account: missing " +:+ k)).
Proof.
  intros Hkey Hnone. unfold Account.deserialize, required_fields in *.
  destruct (fields !! "name") as [n|] eqn:Hn; last first.
  { exists "name". rewrite (required_None _ _ Hn).
    split_and!; [apply list_elem_of_In; simpl; tauto|done..]. }
  rewrite (required_Some _ _ _ Hn).
  destruct (fields !! "email") as [e|] eqn:He; last first.
  { exists "email". rewrite (required_None _ _ He).
    split_and!; [apply list_elem_of_In; simpl; tauto|done..]. }
  rewrite (required_Some _ _ _ He).
  destruct (fields !! "address") as [a|] eqn:Ha; last first.
  { exists "address". rewrite (required_None _ _ Ha).
    split_and!; [apply list_elem_of_In; simpl; tauto|done..]. }
  rewrite (required_Some _ _ _ Ha).
  destruct (fields !! "phone_number") as [p|] eqn:Hp; last first.
  { exists "phone_number". rewrite (required_None _ _ Hp).
    split_and!; [apply list_elem_of_In; simpl; tauto|done..]. }
  exfalso.
  repeat (apply elem_of_cons in Hkey as [->|Hkey]; [congruence|]).
  by apply elem_of_nil in Hkey.
Qed.

(** With the four required keys present, only the date decides. *)
Lemma deserialize_present today self fields n e a p :
  fields !! "name" = Some n → fields !! "email" = Some e →
  fields !! "address" = Some a → fields !! "phone_number" = Some p →
  Account.deserialize today self (JObject fields) =
  match fields !! "date_joined" with
  | None => Ok (Account.mk (Account.id self) n e a p today)
  | Some s =>
      match date.fromisoformat s with
      | Some d => Ok (Account.mk (Account.id self) n e a p d)
      | None => Err (InternalError ("Invalid isoformat string: " +:+ s))
      end
  end.
Proof.
  intros Hn He Ha Hp. unfold Account.deserialize.
  rewrite (required_Some _ _ _ Hn), (required_Some _ _ _ He),
    (required_Some _ _ _ Ha), (required_Some _ _ _ Hp).
  reflexivity.
Qed.

(** The six keys of a serialized Account. *)
Lemma serialize_lookup (a : Account.t) :
  Account.serialize a !! "id" = Some (from_option JNum JNull (Account.id a)) ∧
  Account.serialize a !! "name" = Some (JStr (Account.name a)) ∧
  Account.serialize a !! "email" = Some (JStr (Account.email a)) ∧
  Account.serialize a !! "address" = Some (JStr (Account.address a)) ∧
  Account.serialize a !! "phone_number" = Some (JStr (Account.phone_number a)) ∧
  Account.serialize a !! "date_joined" =
    Some (JStr (date.isoformat (Account.date_joined a))).
Proof. unfold Account.serialize. repeat split; by simplify_map_eq. Qed.

Example sample_store_rows :
  rows sample_store =
  [Account.mk (Some 1) "Ann Lee" "ann@example.com" "1 Main St" "555-0100"
     (date.mk 2024 2 29)].
Proof. vm_compute. reflexivity. Qed.

(** ** The HTTP contract *)

(** Serving a request, in terms of running the view. *)
Lemma serve_run ep c st :
  serve ep c st =
  (render (run (view ep) c st).1 id,
   store (run (view ep) c st).2,
   trace (run (view ep) c st).2).
Proof. unfold serve. by destruct (run (view ep) c st). Qed.

Ltac serve_with lem :=
  unfold response_of, store_after, calls_of;
  rewrite ?serve_run; cbn [view fst snd];
  rewrite ?lem; cbv zeta.

(** C1. A POST /accounts whose Content-Type is application/json and whose
    body deserializes answers 201; the body is the serialized Account that
    was created, which is the deserialized one under the next id of the
    store and is now its last row; the Location header is exactly "/". *)
Theorem create_accounts_created c st data acct :
  headers (request c) !! "Content-Type" = Some "application/json" →
  payload (request c) = Parsed data →
  Account.deserialize (today c) (Account.new (today c)) data = Ok acct →
  status_code (response_of POST_accounts c st) = status.HTTP_201_CREATED ∧
  body (response_of POST_accounts c st) =
    BJson (Account.serialize (db.create acct st).1) ∧
  response_headers (response_of POST_accounts c st) !! "Location" = Some "/" ∧
  Account.id (db.create acct st).1 = Some (next_id st) ∧
  rows (store_after POST_accounts c st) = rows st ++ [(db.create acct st).1].
Proof.
  intros Hct Hdata Hde.
  serve_with create_accounts_run.
  rewrite decide_True by done. rewrite Hdata, Hde.
  cbn [fst snd render id status_code body response_headers store].
  split_and!; try reflexivity.
Qed.

Lemma create_accounts_created_witness :
  status_code
    (response_of POST_accounts
       (sample_ctx (Some "application/json") (Parsed (JObject sample_fields)))
       empty_store) = 201 ∧
  rows
    (store_after POST_accounts
       (sample_ctx (Some "application/json") (Parsed (JObject sample_fields)))
       empty_store) =
  [Account.mk (Some 1) "Ann Lee" "ann@example.com" "1 Main St" "555-0100"
     (date.mk 2024 2 29)].
Proof.
  destruct (create_accounts_created
              (sample_ctx (Some "application/json") (Parsed (JObject sample_fields)))
              empty_store (JObject sample_fields) sample_account)
    as (Hs & _ & _ & _ & Hrows).
  - vm_compute. reflexivity.
  - reflexivity.
  - vm_compute. reflexivity.
  - split; [exact Hs | exact Hrows].
Defined.

(** C2. GET /accounts answers 200 with a JSON array that has one entry per
    stored account, the i-th entry being the serialized form of the i-th
    row; rows are kept in creation order, so an account created next is
    listed last; on a store without rows the array is empty. *)
Theorem list_accounts_complete c st :
  status_code (response_of GET_accounts c st) = status.HTTP_200_OK ∧
  (∃ items,
     body (response_of GET_accounts c st) = BJsonList items ∧
     List.length items = List.length (rows st) ∧
     (∀ i, items !! i = Account.serialize <$> rows st !! i) ∧
     (∀ a, body (response_of GET_accounts c (db.create a st).2) =
           BJsonList (items ++ [Account.serialize (db.create a st).1]))) ∧
  (∀ n, body (response_of GET_accounts c (mkStore [] n)) = BJsonList []) ∧
  store_after GET_accounts c st = st.
Proof.
  serve_with list_accounts_run.
  split_and!; try reflexivity.
  exists (Account.serialize <$> rows st). split_and!.
  - reflexivity.
  - apply length_fmap.
  - intros i. apply list_lookup_fmap.
  - intros a. serve_with list_accounts_run.
    cbn [fst render id body]. by rewrite create_rows, fmap_app.
Qed.

(** C3. GET /accounts/{id} answers 200 with the serialized Account when a
    row with that id exists, and 404 with a message naming the id when no
    row has it. *)
Theorem get_account_found_or_404 c st i :
  match db.find i st with
  | Some a =>
      Account.id a = Some i ∧ a ∈ rows st ∧
      status_code (response_of (GET_account i) c st) = status.HTTP_200_OK ∧
      body (response_of (GET_account i) c st) = BJson (Account.serialize a)
  | None =>
      (∀ a, a ∈ rows st → Account.id a ≠ Some i) ∧
      status_code (response_of (GET_account i) c st) = status.HTTP_404_NOT_FOUND ∧
      message_of (response_of (GET_account i) c st) =
        Some ("Account with id [" +:+ pretty i +:+ "] could not be found.")
  end.
Proof.
  serve_with get_account_run.
  destruct (db.find i st) as [a|] eqn:Hfind; cbn [fst render id].
  - split_and!; try reflexivity.
    + by eapply find_Some_id.
    + by eapply find_Some_elem_of.
  - split_and!; try reflexivity. by apply find_None.
Qed.

Example get_account_sample_found :
  status_code
    (response_of (GET_account 1) (sample_ctx None (Parsed (JOther "")))
       sample_store) = 200.
Proof. vm_compute. reflexivity. Qed.

Example get_account_sample_missing :
  message_of
    (response_of (GET_account 7) (sample_ctx None (Parsed (JOther "")))
       sample_store) = Some "Account with id [7] could not be found.".
Proof. vm_compute. reflexivity. Qed.

Lemma string_length_app (s t : string) :
  String.length (s +:+ t) = (String.length s + String.length t)%nat.
Proof. induction s as [|x s IH]; simpl; [done|]. by rewrite IH. Qed.

Lemma string_app_inj_r (s1 s2 t : string) : s1 +:+ t = s2 +:+ t → s1 = s2.
Proof.
  intros Ht.
  assert (String.length s1 = String.length s2) as Hlen.
  { apply (f_equal String.length) in Ht.
    rewrite !string_length_app in Ht. lia. }
  revert s2 Ht Hlen. induction s1 as [|x s1 IH]; intros [|y s2] Ht Hlen;
    simpl in *; try done.
  simplify_eq. f_equal. by apply IH.
Qed.

(** The 404 message determines the id it names. *)
Lemma not_found_message_inj (i j : Z) :
  "Account with id [" +:+ pretty i +:+ "] could not be found." =
  "Account with id [" +:+ pretty j +:+ "] could not be found." → i = j.
Proof.
  intros H. apply (inj (String.append "Account with id [")) in H.
  apply string_app_inj_r in H. by apply (inj pretty) in H.
Qed.

Lemma delete_account_store i c st :
  store_after (DELETE_account i) c st =
  match db.find i st with
  | Some a => db.delete a st
  | None => st
  end.
Proof.
  serve_with delete_account_run. cbn [snd]. by destruct (db.find i st).
Qed.

Lemma find_after_delete_account i c st :
  db.find i (store_after (DELETE_account i) c st) = None.
Proof.
  rewrite delete_account_store.
  destruct (db.find i st) as [a|] eqn:Hfind; [|done].
  apply find_delete. by eapply find_Some_id.
Qed.

(** C4. DELETE /accounts/{id} answers 204 with an empty body whether or not
    a row with that id exists; DELETE again on the same id answers 204 too,
    and afterwards (as already after the first DELETE) GET on that id
    answers 404. *)
Theorem delete_account_idempotent c1 c2 c3 st i :
  response_of (DELETE_account i) c1 st =
    mkResponse status.HTTP_204_NO_CONTENT (BText "") ∅ ∧
  response_of (DELETE_account i) c2 (store_after (DELETE_account i) c1 st) =
    mkResponse status.HTTP_204_NO_CONTENT (BText "") ∅ ∧
  status_code
    (response_of (GET_account i) c3 (store_after (DELETE_account i) c1 st)) =
    status.HTTP_404_NOT_FOUND ∧
  status_code
    (response_of (GET_account i) c3
       (store_after (DELETE_account i) c2
          (store_after (DELETE_account i) c1 st))) =
    status.HTTP_404_NOT_FOUND.
Proof.
  split_and!.
  - by serve_with delete_account_run.
  - unfold response_of. rewrite serve_run. cbn [view fst].
    by rewrite delete_account_run.
  - unfold response_of at 1. rewrite serve_run. cbn [view fst].
    rewrite get_account_run. cbn [fst].
    by rewrite find_after_delete_account.
  - unfold response_of at 1. rewrite serve_run. cbn [view fst].
    rewrite get_account_run. cbn [fst].
    by rewrite find_after_delete_account.
Qed.

(** DELETE on an existing id does remove a row. *)
Example delete_account_sample :
  db.find 1 sample_store =
    Some (Account.mk (Some 1) "Ann Lee" "ann@example.com" "1 Main St"
            "555-0100" (date.mk 2024 2 29)) ∧
  rows (store_after (DELETE_account 1) (sample_ctx None (Parsed (JOther "")))
          sample_store) = [].
Proof. split; vm_compute; reflexivity. Qed.

(** C5. PUT /accounts/{id} on an id that no row has answers 404, whatever
    the request carries, and leaves the store as it was. *)
Theorem update_account_missing_unchanged c st i :
  db.find i st = None →
  status_code (response_of (PUT_account i) c st) = status.HTTP_404_NOT_FOUND ∧
  store_after (PUT_account i) c st = st.
Proof.
  intros Hfind. serve_with (update_account_missing_run i c st Hfind).
  by split.
Qed.

Lemma update_account_missing_unchanged_witness :
  status_code
    (response_of (PUT_account 99999)
       (sample_ctx (Some "application/json") (Parsed (JObject sample_fields)))
       sample_store) = 404 ∧
  store_after (PUT_account 99999)
    (sample_ctx (Some "application/json") (Parsed (JObject sample_fields)))
    sample_store = sample_store.
Proof.
  apply (update_account_missing_unchanged
           (sample_ctx (Some "application/json") (Parsed (JObject sample_fields)))
           sample_store 99999).
  vm_compute. reflexivity.
Defined.

(** C6. On POST /accounts the Content-Type header must be exactly
    application/json: with the header missing or holding anything else the
    answer is 415, the body is never asked for, and the store is left as it
    was, whatever the body holds. *)
Theorem create_accounts_media_type_gate c st :
  headers (request c) !! "Content-Type" ≠ Some "application/json" →
  status_code (response_of POST_accounts c st) =
    status.HTTP_415_UNSUPPORTED_MEDIA_TYPE ∧
  (EGetJson ∉ calls_of POST_accounts c st) ∧
  store_after POST_accounts c st = st.
Proof.
  intros Hct. serve_with create_accounts_run.
  rewrite decide_False by done. cbn [fst snd render status_code store trace].
  split_and!; try reflexivity.
  intros Hin. repeat (apply elem_of_cons in Hin as [Hin|Hin]; [done|]).
  by apply elem_of_nil in Hin.
Qed.

Lemma create_accounts_media_type_gate_witness :
  status_code
    (response_of POST_accounts
       (sample_ctx (Some "text/html") (Parsed (JObject sample_fields)))
       empty_store) = 415 ∧
  (EGetJson ∉
     calls_of POST_accounts
       (sample_ctx (Some "text/html") (Parsed (JObject sample_fields)))
       empty_store) ∧
  store_after POST_accounts
    (sample_ctx (Some "text/html") (Parsed (JObject sample_fields)))
    empty_store = empty_store.
Proof.
  apply (create_accounts_media_type_gate
           (sample_ctx (Some "text/html") (Parsed (JObject sample_fields)))
           empty_store).
  vm_compute. discriminate.
Defined.

(** The gate lets a request through exactly when the header is
    application/json: only then is the body asked for. *)
Lemma create_accounts_parses_iff c st :
  EGetJson ∈ calls_of POST_accounts c st ↔
  headers (request c) !! "Content-Type" = Some "application/json".
Proof.
  serve_with create_accounts_run. unfold json_media_type.
  case_decide as Hct.
  - split; [done|]. intros _.
    destruct (payload (request c)) as [data|code d];
      [destruct (Account.deserialize _ _ data)|]; cbn [snd trace];
      apply list_elem_of_In; simpl; tauto.
  - split; [|done]. cbn [snd trace]. intros Hin.
    repeat (apply elem_of_cons in Hin as [Hin|Hin]; [done|]).
    by apply elem_of_nil in Hin.
Qed.

Example create_accounts_header_missing :
  status_code
    (response_of POST_accounts
       (sample_ctx None (Parsed (JObject sample_fields))) empty_store) = 415.
Proof. vm_compute. reflexivity. Qed.

Example create_accounts_header_with_charset :
  status_code
    (response_of POST_accounts
       (sample_ctx (Some "application/json; charset=utf-8")
          (Parsed (JObject sample_fields))) empty_store) = 415.
Proof. vm_compute. reflexivity. Qed.

(** C7. A POST /accounts with Content-Type application/json whose body is an
    object that lacks a required key fails in deserialization with a
    [DataValidationError] naming a missing key; the answer is 400 with that
    error's message as body text, and the store is left as it was. *)
Theorem create_accounts_missing_field c st fields key :
  headers (request c) !! "Content-Type" = Some "application/json" →
  payload (request c) = Parsed (JObject fields) →
  key ∈ required_fields →
  fields !! key = None →
  ∃ k,
    k ∈ required_fields ∧ fields !! k = None ∧
    Account.deserialize (today c) (Account.new (today c)) (JObject fields) =
      Err (DataValidationError ("Invalid Account: missing " +:+ k)) ∧
    response_of POST_accounts c st =
      mkResponse status.HTTP_400_BAD_REQUEST
        (BText ("Invalid Account: missing " +:+ k)) ∅ ∧
    store_after POST_accounts c st = st.
Proof.
  intros Hct Hdata Hkey Hnone.
  destruct (deserialize_missing (today c) (Account.new (today c)) fields key
              Hkey Hnone) as (k & Hk & Hkn & Hde).
  exists k. split_and!; try done.
  - serve_with create_accounts_run.
    rewrite decide_True by done. by rewrite Hdata, Hde.
  - serve_with create_accounts_run.
    rewrite decide_True by done. by rewrite Hdata, Hde.
Qed.

Lemma create_accounts_missing_field_witness :
  ∃ k,
    k ∈ required_fields ∧
    ({["name" := "not enough data"]} : gmap string string) !! k = None ∧
    Account.deserialize sample_today (Account.new sample_today)
      (JObject {["name" := "not enough data"]}) =
      Err (DataValidationError ("Invalid Account: missing " +:+ k)) ∧
    response_of POST_accounts
      (sample_ctx (Some "application/json")
         (Parsed (JObject {["name" := "not enough data"]})))
      sample_store =
      mkResponse 400 (BText ("Invalid Account: missing " +:+ k)) ∅ ∧
    store_after POST_accounts
      (sample_ctx (Some "application/json")
         (Parsed (JObject {["name" := "not enough data"]})))
      sample_store = sample_store.
Proof.
  apply (create_accounts_missing_field
           (sample_ctx (Some "application/json")
              (Parsed (JObject {["name" := "not enough data"]})))
           sample_store {["name" := "not enough data"]} "phone_number").
  - vm_compute. reflexivity.
  - reflexivity.
  - apply list_elem_of_In. simpl. tauto.
  - vm_compute. reflexivity.
Defined.

(** The key reported is the first one missing: here, email. *)
Example create_accounts_missing_field_sample :
  response_of POST_accounts
    (sample_ctx (Some "application/json")
       (Parsed (JObject {["name" := "not enough data"]})))
    empty_store =
  mkResponse 400 (BText "Invalid Account: missing email") ∅.
Proof. vm_compute. reflexivity. Qed.

(** C9. For an object with the four required string fields and, if given, a
    [date_joined] that is an ISO date, [deserialize] succeeds and
    [serialize] of its result holds the input's name, email, address and
    phone_number, and as [date_joined] the supplied value, or today's date
    when none was supplied. *)
Theorem deserialize_serialize_roundtrip today self fields n e a p :
  fields !! "name" = Some n →
  fields !! "email" = Some e →
  fields !! "address" = Some a →
  fields !! "phone_number" = Some p →
  from_option (λ s, is_Some (date.fromisoformat s)) True
    (fields !! "date_joined") →
  ∃ acct,
    Account.deserialize today self (JObject fields) = Ok acct ∧
    Account.serialize acct !! "name" = Some (JStr n) ∧
    Account.serialize acct !! "email" = Some (JStr e) ∧
    Account.serialize acct !! "address" = Some (JStr a) ∧
    Account.serialize acct !! "phone_number" = Some (JStr p) ∧
    Account.serialize acct !! "date_joined" =
      Some (JStr (default (date.isoformat today) (fields !! "date_joined"))).
Proof.
  intros Hn He Ha Hp Hdate.
  rewrite (deserialize_present today self fields n e a p Hn He Ha Hp).
  destruct (fields !! "date_joined") as [s|]; simpl in Hdate |- *.
  - destruct Hdate as [d Hd]. rewrite Hd. eexists. split; [reflexivity|].
    destruct (serialize_lookup (Account.mk (Account.id self) n e a p d))
      as (_ & ? & ? & ? & ? & Hj).
    split_and!; try done.
    rewrite Hj. cbn [Account.date_joined].
    by rewrite (isoformat_fromisoformat s d Hd).
  - eexists. split; [reflexivity|].
    destruct (serialize_lookup (Account.mk (Account.id self) n e a p today))
      as (_ & ? & ? & ? & ? & Hj).
    split_and!; done.
Qed.

Lemma deserialize_serialize_roundtrip_witness :
  ∃ acct,
    Account.deserialize sample_today (Account.new sample_today)
      (JObject sample_fields) = Ok acct ∧
    Account.serialize acct !! "name" = Some (JStr "Ann Lee") ∧
    Account.serialize acct !! "email" = Some (JStr "ann@example.com") ∧
    Account.serialize acct !! "address" = Some (JStr "1 Main St") ∧
    Account.serialize acct !! "phone_number" = Some (JStr "555-0100") ∧
    Account.serialize acct !! "date_joined" =
      Some (JStr (default (date.isoformat sample_today)
                    (sample_fields !! "date_joined"))).
Proof.
  apply (deserialize_serialize_roundtrip sample_today
           (Account.new sample_today) sample_fields
           "Ann Lee" "ann@example.com" "1 Main St" "555-0100").
  - vm_compute. reflexivity.
  - vm_compute. reflexivity.
  - vm_compute. reflexivity.
  - vm_compute. reflexivity.
  - vm_compute. eexists. reflexivity.
Defined.

(** Without [date_joined] the serialized date is today's. *)
Example roundtrip_date_omitted :
  (λ acct, Account.serialize acct !! "date_joined") <$>
    (match Account.deserialize sample_today (Account.new sample_today)
             (JObject (delete "date_joined" sample_fields)) with
     | Ok acct => Some acct
     | Err _ => None
     end) = Some (Some (JStr "2025-01-02")).
Proof. vm_compute. reflexivity. Qed.

(** C8, as stated, fails for PUT, on a missing id and on an existing one.
    A PUT to an id that no row has, sent as text/html, is a write request
    with a wrong Content-Type, and it is answered 404, not 415.  A PUT to an
    existing id whose Content-Type is "application/json; charset=utf-8",
    which is not the exact value and is answered 415 on POST, is answered
    200. *)
Lemma write_media_type_gate_fails :
  (is_write (PUT_account 99999) = true ∧
   headers (request (sample_ctx (Some "text/html")
                       (Parsed (JObject sample_fields)))) !! "Content-Type"
     ≠ Some "application/json" ∧
   status_code
     (response_of (PUT_account 99999)
        (sample_ctx (Some "text/html") (Parsed (JObject sample_fields)))
        empty_store) = status.HTTP_404_NOT_FOUND ∧
   status_code
     (response_of (PUT_account 99999)
        (sample_ctx (Some "text/html") (Parsed (JObject sample_fields)))
        empty_store) ≠ status.HTTP_415_UNSUPPORTED_MEDIA_TYPE) ∧
  (is_write (PUT_account 1) = true ∧
   headers (request (sample_ctx (Some "application/json; charset=utf-8")
                       (Parsed (JObject sample_fields)))) !! "Content-Type"
     ≠ Some "application/json" ∧
   status_code
     (response_of POST_accounts
        (sample_ctx (Some "application/json; charset=utf-8")
           (Parsed (JObject sample_fields)))
        sample_store) = status.HTTP_415_UNSUPPORTED_MEDIA_TYPE ∧
   status_code
     (response_of (PUT_account 1)
        (sample_ctx (Some "application/json; charset=utf-8")
           (Parsed (JObject sample_fields)))
        sample_store) = status.HTTP_200_OK ∧
   status_code
     (response_of (PUT_account 1)
        (sample_ctx (Some "application/json; charset=utf-8")
           (Parsed (JObject sample_fields)))
        sample_store) ≠ status.HTTP_415_UNSUPPORTED_MEDIA_TYPE).
Proof.
  split; split_and!.
  - reflexivity.
  - vm_compute. discriminate.
  - vm_compute. reflexivity.
  - vm_compute. discriminate.
  - reflexivity.
  - vm_compute. discriminate.
  - vm_compute. reflexivity.
  - vm_compute. reflexivity.
  - vm_compute. discriminate.
Qed.

(** So the 415 rule does not hold of every write request. *)
Lemma write_requests_not_all_gated :
  ¬ (∀ ep c st,
       is_write ep = true →
       headers (request c) !! "Content-Type" ≠ Some "application/json" →
       status_code (response_of ep c st) =
         status.HTTP_415_UNSUPPORTED_MEDIA_TYPE).
Proof.
  intros H.
  specialize (H (PUT_account 99999)
                (sample_ctx None (Parsed (JObject sample_fields)))
                empty_store eq_refl).
  assert (status_code
            (response_of (PUT_account 99999)
               (sample_ctx None (Parsed (JObject sample_fields)))
               empty_store) = 404) as H404 by (vm_compute; reflexivity).
  rewrite H404 in H. unfold status.HTTP_415_UNSUPPORTED_MEDIA_TYPE in H.
  assert (404 ≠ 415) as Hne by lia. apply Hne, H.
  vm_compute. discriminate.
Qed.

(** C8, amended. With a wrong or missing Content-Type, POST /accounts is
    answered 415 before the body is asked for; a PUT /accounts/{id} to an
    id that no row has is answered 404 before the body is asked for. *)
Theorem write_media_type_gate_amended c st :
  headers (request c) !! "Content-Type" ≠ Some "application/json" →
  (status_code (response_of POST_accounts c st) =
     status.HTTP_415_UNSUPPORTED_MEDIA_TYPE ∧
   (EGetJson ∉ calls_of POST_accounts c st)) ∧
  ∀ i,
    db.find i st = None →
    status_code (response_of (PUT_account i) c st) =
      status.HTTP_404_NOT_FOUND ∧
    (EGetJson ∉ calls_of (PUT_account i) c st).
Proof.
  intros Hct. split.
  - serve_with create_accounts_run.
    rewrite decide_False by done. cbn [fst snd render status_code trace].
    split; [reflexivity|]. intros Hin.
    repeat (apply elem_of_cons in Hin as [Hin|Hin]; [done|]).
    by apply elem_of_nil in Hin.
  - intros i Hfind.
    serve_with (update_account_missing_run i c st Hfind).
    cbn [fst snd render status_code trace]. split; [reflexivity|].
    intros Hin. repeat (apply elem_of_cons in Hin as [Hin|Hin]; [done|]).
    by apply elem_of_nil in Hin.
Qed.

Lemma write_media_type_gate_amended_witness :
  status_code
    (response_of POST_accounts
       (sample_ctx (Some "text/html") (Parsed (JObject sample_fields)))
       sample_store) = 415 ∧
  status_code
    (response_of (PUT_account 99999)
       (sample_ctx (Some "text/html") (Parsed (JObject sample_fields)))
       sample_store) = 404 ∧
  (EGetJson ∉
     calls_of (PUT_account 99999)
       (sample_ctx (Some "text/html") (Parsed (JObject sample_fields)))
       sample_store).
Proof.
  destruct (write_media_type_gate_amended
              (sample_ctx (Some "text/html") (Parsed (JObject sample_fields)))
              sample_store) as [[Hpost _] Hput].
  - vm_compute. discriminate.
  - destruct (Hput 99999) as [H1 H2].
    + vm_compute. reflexivity.
    + split; [exact Hpost|]. split; [exact H1|exact H2].
Defined.

(** C10. PUT /accounts/{id} on an id that no row has answers 404 whatever
    the body is: the lookup comes first, the body is never asked for, and
    so no body, however malformed, turns the answer into a 400. *)
Theorem update_account_missing_before_body c st i :
  db.find i st = None →
  status_code (response_of (PUT_account i) c st) = status.HTTP_404_NOT_FOUND ∧
  status_code (response_of (PUT_account i) c st) ≠ status.HTTP_400_BAD_REQUEST ∧
  (EGetJson ∉ calls_of (PUT_account i) c st) ∧
  ∀ c', response_of (PUT_account i) c' st = response_of (PUT_account i) c st.
Proof.
  intros Hfind. split_and!.
  - by serve_with (update_account_missing_run i c st Hfind).
  - by serve_with (update_account_missing_run i c st Hfind).
  - serve_with (update_account_missing_run i c st Hfind).
    cbn [snd trace]. intros Hin.
    repeat (apply elem_of_cons in Hin as [Hin|Hin]; [done|]).
    by apply elem_of_nil in Hin.
  - intros c'. unfold response_of. rewrite !serve_run. cbn [view fst].
    by rewrite !update_account_missing_run.
Qed.

Lemma update_account_missing_before_body_witness :
  status_code
    (response_of (PUT_account 99999)
       (sample_ctx (Some "application/json") (Undecodable 400 "malformed JSON"))
       sample_store) = 404 ∧
  (EGetJson ∉
     calls_of (PUT_account 99999)
       (sample_ctx (Some "application/json") (Undecodable 400 "malformed JSON"))
       sample_store).
Proof.
  destruct (update_account_missing_before_body
              (sample_ctx (Some "application/json")
                 (Undecodable 400 "malformed JSON"))
              sample_store 99999) as (H1 & _ & H2 & _).
  - vm_compute. reflexivity.
  - split; [exact H1 | exact H2].
Defined.

(** On an existing id the body does decide: a malformed one gives 400. *)
Example update_account_existing_malformed :
  status_code
    (response_of (PUT_account 1)
       (sample_ctx (Some "application/json") (Undecodable 400 "malformed JSON"))
       sample_store) = 400.
Proof. vm_compute. reflexivity. Qed.

(** * Further properties of the routes *)

(** ** Membership in short traces *)

Ltac not_in_trace :=
  let Hin := fresh "Hin" in
  intros Hin;
  repeat (apply elem_of_app in Hin as [Hin|Hin]);
  repeat (apply elem_of_cons in Hin as [Hin|Hin]; [done|]);
  by apply elem_of_nil in Hin.

(** ** The media type check on its own *)

(** X1. [check_content_type(media_type)] returns normally exactly when the
    Content-Type header is present, equal to [media_type] and not empty (an
    empty header is falsy, so even [check_content_type("")] rejects it);
    otherwise it aborts with 415 and "Content-Type must be <media_type>".
    Either way it leaves the store alone and does not ask for the body. *)
Theorem check_content_type_passes_iff media_type c st :
  ((run (check_content_type media_type) c st).1 = Return tt ↔
   headers (request c) !! "Content-Type" = Some media_type ∧ media_type ≠ "") ∧
  ((run (check_content_type media_type) c st).1 = Return tt ∨
   (run (check_content_type media_type) c st).1 =
     Abort status.HTTP_415_UNSUPPORTED_MEDIA_TYPE
       ("Content-Type must be " +:+ media_type)) ∧
  store (run (check_content_type media_type) c st).2 = st ∧
  (EGetJson ∉ trace (run (check_content_type media_type) c st).2).
Proof.
  unfold run. rewrite check_content_type_run. cbv zeta.
  case_decide as Hd; cbn [fst snd store trace].
  - split_and!; [done|by left|done|not_in_trace].
  - split_and!; [split; [done|by intros ?]|by right|done|not_in_trace].
Qed.

Example check_content_type_empty_header :
  (run (check_content_type "") (sample_ctx (Some "") (Parsed (JOther "")))
     empty_store).1 =
  Abort 415 "Content-Type must be ".
Proof. vm_compute. reflexivity. Qed.

(** ** Endpoints that only read *)

(** [/health] and [/] answer 200 with their fixed bodies for every
    request and every store; they make no call at all: no header or body is
    read, the entity model is not touched, nothing is logged. *)
Theorem health_index_fixed c st :
  response_of GET_health c st =
    mkResponse status.HTTP_200_OK (BJson {["status" := JStr "OK"]}) ∅ ∧
  calls_of GET_health c st = [] ∧
  status_code (response_of GET_index c st) = status.HTTP_200_OK ∧
  (∃ obj, body (response_of GET_index c st) = BJson obj ∧
          obj !! "name" = Some (JStr "Account REST API Service") ∧
          obj !! "version" = Some (JStr "1.0") ∧
          obj !! "paths" = None) ∧
  calls_of GET_index c st = [].
Proof.
  split_and!; try reflexivity.
  eexists. split; [reflexivity|]. split_and!; by simplify_map_eq.
Qed.

Lemma read_run ep c c' st :
  is_read ep = true →
  (run (view ep) c st).1 = (run (view ep) c' st).1 ∧
  store (run (view ep) c st).2 = st ∧
  (EGetJson ∉ trace (run (view ep) c st).2) ∧
  (∀ name, EHeaderGet name ∉ trace (run (view ep) c st).2).
Proof.
  intros Hread. destruct ep as [| | | |i|i|i]; try done; cbn [view].
  - split_and!; try done; [|intros name]; cbn; not_in_trace.
  - split_and!; try done; [|intros name]; cbn; not_in_trace.
  - rewrite !list_accounts_run. cbn [fst snd store trace].
    split_and!; try done; [|intros name]; not_in_trace.
  - rewrite !get_account_run. cbn [fst snd store trace].
    split_and!; try done; [|intros name]; not_in_trace.
Qed.

Lemma read_endpoints_frame_aux ep c st :
  is_read ep = true →
  store_after ep c st = st ∧ (EGetJson ∉ calls_of ep c st).
Proof.
  intros Hread. unfold store_after, calls_of. rewrite serve_run. cbn [fst snd].
  by destruct (read_run ep c c st Hread) as (_ & Hst & Hj & _).
Qed.

(** X2. The four GET endpoints never change the store, never read a header
    and never ask for the body; their answer depends on the path and the
    store only, not on what the request carries. *)
Theorem read_endpoints_frame ep c st :
  is_read ep = true →
  store_after ep c st = st ∧
  (EGetJson ∉ calls_of ep c st) ∧
  (∀ name, EHeaderGet name ∉ calls_of ep c st) ∧
  (∀ c', response_of ep c' st = response_of ep c st).
Proof.
  intros Hread. unfold store_after, calls_of, response_of.
  rewrite serve_run. cbn [fst snd].
  destruct (read_run ep c c st Hread) as (_ & Hst & Hj & Hh).
  split_and!; try done.
  intros c'. rewrite serve_run. cbn [fst].
  by destruct (read_run ep c' c st Hread) as (-> & _).
Qed.

Lemma read_endpoints_frame_witness :
  store_after (GET_account 1)
    (sample_ctx (Some "text/html") (Undecodable 400 "malformed JSON"))
    sample_store = sample_store ∧
  response_of (GET_account 1)
    (sample_ctx None (Parsed (JObject sample_fields))) sample_store =
  response_of (GET_account 1)
    (sample_ctx (Some "text/html") (Undecodable 400 "malformed JSON"))
    sample_store.
Proof.
  destruct (read_endpoints_frame (GET_account 1)
              (sample_ctx (Some "text/html") (Undecodable 400 "malformed JSON"))
              sample_store) as (Hst & _ & _ & Hresp).
  - reflexivity.
  - split; [exact Hst | apply Hresp].
Defined.

(** ** Writes are all or nothing *)

Lemma deserialize_id today self data a :
  Account.deserialize today self data = Ok a → Account.id a = Account.id self.
Proof.
  unfold Account.deserialize. destruct data as [fields|detail]; [|done].
  unfold Account.required.
  destruct (fields !! "name") as [n|]; [|done].
  destruct (fields !! "email") as [e|]; [|done].
  destruct (fields !! "address") as [ad|]; [|done].
  destruct (fields !! "phone_number") as [p|]; [|done].
  cbn [result_bind].
  destruct (fields !! "date_joined") as [dj|];
    [destruct (date.fromisoformat dj)|]; intros; by simplify_eq.
Qed.

(** What POST /accounts leaves behind, in the two ways it can end. *)
Lemma create_accounts_outcome c st :
  (store_after POST_accounts c st = st ∧
   (ECreate (next_id st) ∉ calls_of POST_accounts c st)) ∨
  (∃ data acct,
     headers (request c) !! "Content-Type" = Some "application/json" ∧
     payload (request c) = Parsed data ∧
     Account.deserialize (today c) (Account.new (today c)) data = Ok acct ∧
     response_of POST_accounts c st =
       mkResponse status.HTTP_201_CREATED
         (BJson (Account.serialize (db.create acct st).1))
         {["Location" := "/"]} ∧
     store_after POST_accounts c st = (db.create acct st).2).
Proof.
  serve_with create_accounts_run. unfold json_media_type.
  case_decide as Hct; [|left; split; [done|cbn [snd trace]; not_in_trace]].
  destruct (payload (request c)) as [data|code d] eqn:Hp;
    [|left; split; [done|cbn [snd trace]; not_in_trace]].
  destruct (Account.deserialize _ _ data) as [acct|e] eqn:Hde;
    [|left; split; [done|cbn [snd trace]; not_in_trace]].
  right. by exists data, acct.
Qed.

(** X3. POST /accounts is all or nothing: either the store is left exactly
    as it was (and [create] was not called), or the answer is 201 and the
    store has gained exactly one row, placed last, under the id that was
    next, and that row is the one the response shows. *)
Theorem create_accounts_all_or_nothing c st :
  (store_after POST_accounts c st = st ∧
   (ECreate (next_id st) ∉ calls_of POST_accounts c st)) ∨
  (status_code (response_of POST_accounts c st) = status.HTTP_201_CREATED ∧
   ∃ a,
     rows (store_after POST_accounts c st) = rows st ++ [a] ∧
     Account.id a = Some (next_id st) ∧
     next_id (store_after POST_accounts c st) = next_id st + 1 ∧
     body (response_of POST_accounts c st) = BJson (Account.serialize a)).
Proof.
  destruct (create_accounts_outcome c st)
    as [Hsame|(data & acct & _ & _ & _ & Hresp & Hst)]; [by left|].
  right. rewrite Hresp, Hst. split; [done|].
  by exists (db.create acct st).1.
Qed.

(** [update] on a row that [find] has just returned, with the id kept. *)
Lemma update_found i a a' st :
  db.find i st = Some a → Account.id a' = Some i →
  db.update a' st =
  Some (mkStore ((λ r, if db.has_id i r then a' else r) <$> rows st) (next_id st)).
Proof. intros Hfind Hid. unfold db.update. by rewrite Hid, Hfind. Qed.

(** What PUT /accounts/{id} leaves behind on an id that exists. *)
Lemma update_account_outcome i a c st :
  db.find i st = Some a →
  (store_after (PUT_account i) c st = st ∧
   (EUpdate i ∉ calls_of (PUT_account i) c st)) ∨
  (∃ data a',
     get_json_answer c = Return data ∧
     Account.deserialize (today c) a data = Ok a' ∧
     Account.id a' = Some i ∧
     response_of (PUT_account i) c st =
       mkResponse status.HTTP_200_OK (BJson (Account.serialize a')) ∅ ∧
     store_after (PUT_account i) c st =
       mkStore ((λ r, if db.has_id i r then a' else r) <$> rows st) (next_id st)).
Proof.
  intros Hfind.
  serve_with (update_account_found_run i a c st Hfind).
  destruct (get_json_answer c) as [data|code d|e] eqn:Hp.
  - destruct (Account.deserialize (today c) a data) as [a'|e] eqn:Hde.
    + assert (Account.id a' = Some i) as Hid.
      { rewrite (deserialize_id _ _ _ _ Hde). by eapply find_Some_id. }
      rewrite (update_found i a a' st Hfind Hid).
      right. by exists data, a'.
    + left. cbn [fst snd store trace]. split; [done|not_in_trace].
  - left. cbn [fst snd store trace]. split; [done|not_in_trace].
  - left. cbn [fst snd store trace]. split; [done|not_in_trace].
Qed.

(** Rows after [update]: the rows with the id are replaced, in place. *)
Lemma find_replace i j a' (l : list Account.t) :
  Account.id a' = Some i →
  head (filter (λ r, db.has_id j r = true)
          ((λ r, if db.has_id i r then a' else r) <$> l)) =
  if decide (i = j)
  then (λ _, a') <$> head (filter (λ r, db.has_id i r = true) l)
  else head (filter (λ r, db.has_id j r = true) l).
Proof.
  intros Hid.
  assert (∀ k r, db.has_id k r = true ↔ Account.id r = Some k) as Hhas.
  { intros k r. unfold db.has_id. apply bool_decide_eq_true. }
  destruct (decide (i = j)) as [<-|Hne].
  - induction l as [|r l IH]; [done|].
    rewrite fmap_cons, !filter_cons.
    destruct (db.has_id i r) eqn:Hr.
    + rewrite !decide_True; [done|done|by apply Hhas].
    + rewrite !decide_False by congruence. exact IH.
  - induction l as [|r l IH]; [done|].
    rewrite fmap_cons, !filter_cons.
    destruct (db.has_id i r) eqn:Hr.
    + apply Hhas in Hr.
      rewrite !decide_False; [exact IH| |]; rewrite Hhas; congruence.
    + case_decide; [done|exact IH].
Qed.

Lemma ids_replace i a' (l : list Account.t) :
  Account.id a' = Some i →
  Account.id <$> ((λ r, if db.has_id i r then a' else r) <$> l) = Account.id <$> l.
Proof.
  intros Hid. rewrite <- list_fmap_compose. apply list_fmap_ext.
  intros k r _. simpl. destruct (db.has_id i r) eqn:Hr; [|done].
  apply bool_decide_eq_true in Hr. congruence.
Qed.

(** X4. PUT /accounts/{id} is all or nothing: either the store is left
    exactly as it was (and [update] was not called), or the answer is 200
    with the account as it now stands, which still carries the id of the
    path, and a GET on that id from then on returns that same response. *)
Theorem update_account_all_or_nothing c st i :
  (store_after (PUT_account i) c st = st ∧
   (EUpdate i ∉ calls_of (PUT_account i) c st)) ∨
  (status_code (response_of (PUT_account i) c st) = status.HTTP_200_OK ∧
   (∃ a', body (response_of (PUT_account i) c st) = BJson (Account.serialize a') ∧
          Account.id a' = Some i ∧
          db.find i (store_after (PUT_account i) c st) = Some a') ∧
   ∀ c', response_of (GET_account i) c' (store_after (PUT_account i) c st) =
         response_of (PUT_account i) c st).
Proof.
  destruct (db.find i st) as [a|] eqn:Hfind.
  - destruct (update_account_outcome i a c st Hfind)
      as [Hsame|(data & a' & _ & _ & Hid & Hresp & Hst)]; [by left|].
    right. rewrite Hresp, Hst.
    assert (db.find i
              (mkStore ((λ r, if db.has_id i r then a' else r) <$> rows st)
                 (next_id st)) = Some a') as Hnow.
    { unfold db.find in *. cbn [rows].
      rewrite (find_replace i i a' _ Hid), decide_True by done.
      by rewrite Hfind. }
    split_and!; [done|by exists a'|].
    intros c'. unfold response_of. rewrite serve_run. cbn [view fst].
    rewrite get_account_run. cbn [fst]. by rewrite Hnow.
  - left. serve_with (update_account_missing_run i c st Hfind).
    cbn [snd store trace]. split; [done|not_in_trace].
Qed.

(** X5. Whatever a PUT /accounts/{id} does, the store keeps its number of
    rows, their ids in order and its next id, and a GET on any other id
    answers as before. *)
Theorem update_account_frame c st i :
  List.length (rows (store_after (PUT_account i) c st)) = List.length (rows st) ∧
  Account.id <$> rows (store_after (PUT_account i) c st) = Account.id <$> rows st ∧
  next_id (store_after (PUT_account i) c st) = next_id st ∧
  ∀ j c', j ≠ i →
    response_of (GET_account j) c' (store_after (PUT_account i) c st) =
    response_of (GET_account j) c' st.
Proof.
  destruct (db.find i st) as [a|] eqn:Hfind.
  - destruct (update_account_outcome i a c st Hfind)
      as [[-> _]|(data & a' & _ & _ & Hid & _ & ->)]; [done|].
    cbn [rows next_id]. split_and!.
    + by rewrite length_fmap.
    + by apply ids_replace.
    + done.
    + intros j c' Hne. unfold response_of. rewrite !serve_run.
      cbn [view fst]. rewrite !get_account_run. cbn [fst].
      unfold db.find. cbn [rows].
      by rewrite (find_replace i j a' _ Hid), decide_False by done.
  - assert (store_after (PUT_account i) c st = st) as ->; [|done].
    by serve_with (update_account_missing_run i c st Hfind).
Qed.

Lemma filter_all {A} (P : A → Prop) `{∀ x, Decision (P x)} (l : list A) :
  (∀ x, x ∈ l → P x) → filter P l = l.
Proof.
  induction l as [|x l IH]; intros Hall; [done|].
  rewrite filter_cons_True by (apply Hall; left).
  f_equal. apply IH. intros y Hy. apply Hall. by right.
Qed.

(** X6. DELETE /accounts/{id} removes the rows that carry the id and
    nothing else: the other rows stay, in their order, the next id is kept,
    and a GET on any other id answers as before. *)
Theorem delete_account_frame c st i :
  rows (store_after (DELETE_account i) c st) =
    filter (λ r, Account.id r ≠ Some i) (rows st) ∧
  next_id (store_after (DELETE_account i) c st) = next_id st ∧
  ∀ j c', j ≠ i →
    response_of (GET_account j) c' (store_after (DELETE_account i) c st) =
    response_of (GET_account j) c' st.
Proof.
  rewrite delete_account_store.
  destruct (db.find i st) as [a|] eqn:Hfind.
  - pose proof (find_Some_id _ _ _ Hfind) as Hid.
    unfold db.delete. rewrite Hid. cbn [rows next_id]. split_and!.
    + apply list_filter_iff. intros r. unfold db.has_id.
      by rewrite bool_decide_eq_false.
    + done.
    + intros j c' Hne. unfold response_of. rewrite !serve_run.
      cbn [view fst]. rewrite !get_account_run. cbn [fst].
      f_equal. f_equal.
      pose proof (find_delete_ne i j a st Hid) as Hd.
      unfold db.delete in Hd. rewrite Hid in Hd. rewrite Hd; [done|congruence].
  - split_and!; try done.
    symmetry. apply filter_all.
    intros r Hr. by apply (proj1 (find_None i st) Hfind).
Qed.

(** ** Well-formed stores are kept well-formed *)

Lemma store_ok_spec st :
  store_ok st = true ↔
  NoDup (Account.id <$> rows st) ∧ Forall (id_below (next_id st)) (rows st).
Proof.
  unfold store_ok. rewrite andb_true_iff, bool_decide_eq_true.
  apply and_iff_compat_l.
  rewrite <- Is_true_true, forallb_True.
  apply Forall_proper; [|done]. intros a. unfold assigned_below, id_below.
  destruct (Account.id a) as [i|]; simpl.
  - rewrite bool_decide_spec. split.
    + intros Hlt. by exists i.
    + intros (k & Hk & Hlt). by simplify_eq.
  - split; [done|]. by intros (k & Hk & _).
Qed.

Lemma id_below_not_next st a :
  Forall (id_below (next_id st)) (rows st) → a ∈ rows st →
  Account.id a ≠ Some (next_id st).
Proof.
  intros Hall Ha Hid. rewrite Forall_forall in Hall.
  destruct (Hall a Ha) as (i & Hi & Hlt). simplify_eq. lia.
Qed.

Lemma store_ok_create a st :
  store_ok st = true → store_ok (db.create a st).2 = true.
Proof.
  rewrite !store_ok_spec. intros [Hnd Hall]. cbn [db.create snd rows next_id].
  split.
  - rewrite fmap_app. apply NoDup_app. split_and!; [done| |apply NoDup_singleton].
    intros o Ho Hin. apply list_elem_of_singleton in Hin. subst o.
    apply list_elem_of_fmap in Ho as (r & Hr & Hin).
    by eapply id_below_not_next.
  - apply Forall_app. split.
    + eapply Forall_impl; [exact Hall|].
      intros r (i & Hi & Hlt). exists i. split; [done|lia].
    + apply Forall_singleton. exists (next_id st). split; [done|lia].
Qed.

Lemma store_ok_replace i a a' st :
  db.find i st = Some a → Account.id a' = Some i →
  store_ok st = true →
  store_ok (mkStore ((λ r, if db.has_id i r then a' else r) <$> rows st)
              (next_id st)) = true.
Proof.
  rewrite !store_ok_spec. intros Hfind Hid [Hnd Hall]. cbn [rows next_id].
  split; [by rewrite ids_replace|].
  apply Forall_fmap. eapply Forall_impl; [exact Hall|].
  intros r Hr. simpl. destruct (db.has_id i r) eqn:Hhas; [|done].
  apply bool_decide_eq_true in Hhas.
  destruct Hr as (k & Hk & Hlt). exists i. split; [done|]. congruence.
Qed.

Lemma store_ok_delete a st :
  store_ok st = true → store_ok (db.delete a st) = true.
Proof.
  rewrite !store_ok_spec. intros [Hnd Hall]. unfold db.delete.
  destruct (Account.id a) as [i|]; [|done]. cbn [rows next_id]. split.
  - eapply sublist_NoDup; [exact Hnd|].
    apply fmap_sublist, sublist_filter.
  - rewrite Forall_forall in Hall. apply Forall_forall.
    intros r [_ Hr]%list_elem_of_filter. by apply Hall.
Qed.

(** X7. Every endpoint keeps the store well-formed: starting from a store
    in which ids are pairwise distinct and all below the next id, whatever
    request is served leaves such a store again, and the next id never
    goes down, so an id that was handed out is not handed out again. *)
Theorem serve_keeps_store_ok ep c st :
  store_ok st = true →
  store_ok (store_after ep c st) = true ∧
  next_id st ≤ next_id (store_after ep c st).
Proof.
  intros Hok. destruct ep as [| | | |i|i|i].
  - by destruct (read_endpoints_frame_aux GET_health c st eq_refl) as [-> _].
  - by destruct (read_endpoints_frame_aux GET_index c st eq_refl) as [-> _].
  - destruct (create_accounts_outcome c st)
      as [[-> _]|(data & acct & _ & _ & _ & _ & ->)]; [done|].
    split; [by apply store_ok_create|]. cbn. lia.
  - by destruct (read_endpoints_frame_aux GET_accounts c st eq_refl) as [-> _].
  - by destruct (read_endpoints_frame_aux (GET_account i) c st eq_refl) as [-> _].
  - destruct (db.find i st) as [a|] eqn:Hfind.
    + destruct (update_account_outcome i a c st Hfind)
        as [[-> _]|(data & a' & _ & _ & Hid & _ & ->)]; [done|].
      split; [by eapply store_ok_replace|done].
    + assert (store_after (PUT_account i) c st = st) as ->; [|done].
      by serve_with (update_account_missing_run i c st Hfind).
  - rewrite delete_account_store.
    destruct (db.find i st) as [a|] eqn:Hfind; [|done].
    split; [by apply store_ok_delete|].
    unfold db.delete. by destruct (Account.id a).
Qed.

Lemma serve_keeps_store_ok_witness :
  store_ok
    (store_after POST_accounts
       (sample_ctx (Some "application/json") (Parsed (JObject sample_fields)))
       sample_store) = true ∧
  next_id sample_store ≤
  next_id
    (store_after POST_accounts
       (sample_ctx (Some "application/json") (Parsed (JObject sample_fields)))
       sample_store).
Proof.
  apply (serve_keeps_store_ok POST_accounts
           (sample_ctx (Some "application/json") (Parsed (JObject sample_fields)))
           sample_store).
  vm_compute. reflexivity.
Defined.

(** In a well-formed store the row of an id is the only one with it. *)
Lemma length_delete i a st :
  store_ok st = true → db.find i st = Some a →
  S (List.length (rows (db.delete a st))) = List.length (rows st).
Proof.
  intros [Hnd _]%store_ok_spec Hfind.
  pose proof (find_Some_id _ _ _ Hfind) as Hid.
  pose proof (find_Some_elem_of _ _ _ Hfind) as Hin.
  unfold db.delete. rewrite Hid. cbn [rows]. clear Hfind.
  induction (rows st) as [|r l IH]; [by apply elem_of_nil in Hin|].
  rewrite fmap_cons in Hnd. apply NoDup_cons in Hnd as [Hr Hnd].
  rewrite filter_cons. destruct (db.has_id i r) eqn:Hhas.
  - rewrite decide_False by done. cbn [List.length]. f_equal.
    apply bool_decide_eq_true in Hhas. f_equal. apply filter_all.
    intros x Hx. unfold db.has_id. apply bool_decide_eq_false.
    intros Hxid. apply Hr. rewrite Hhas, <- Hxid.
    apply list_elem_of_fmap. by exists x.
  - rewrite decide_True by done. cbn [List.length]. f_equal.
    apply IH; [done|].
    apply elem_of_cons in Hin as [->|Hin]; [|done].
    apply bool_decide_eq_false in Hhas. done.
Qed.

(** X8. In a well-formed store, DELETE /accounts/{id} on an id that exists
    removes exactly one row; on an id that does not exist it leaves the
    store as it is. *)
Theorem delete_account_removes_one c st i :
  store_ok st = true →
  match db.find i st with
  | Some _ =>
      S (List.length (rows (store_after (DELETE_account i) c st))) =
      List.length (rows st)
  | None => store_after (DELETE_account i) c st = st
  end.
Proof.
  intros Hok. rewrite delete_account_store.
  destruct (db.find i st) as [a|] eqn:Hfind; [|done].
  by apply (length_delete i).
Qed.

Lemma delete_account_removes_one_witness :
  S (List.length
       (rows (store_after (DELETE_account 1)
                (sample_ctx None (Parsed (JOther ""))) sample_store))) =
  List.length (rows sample_store).
Proof.
  apply (delete_account_removes_one (sample_ctx None (Parsed (JOther "")))
           sample_store 1).
  vm_compute. reflexivity.
Defined.

(** In a well-formed store the row just created is the one found under the
    id it was given. *)
Lemma find_create a st :
  store_ok st = true →
  db.find (next_id st) (db.create a st).2 = Some (db.create a st).1.
Proof.
  intros [_ Hall]%store_ok_spec. unfold db.find.
  cbn [db.create snd fst rows]. rewrite filter_app.
  assert (filter (λ r, db.has_id (next_id st) r = true) (rows st) = []) as ->.
  { destruct (filter _ (rows st)) as [|r l] eqn:Hf; [done|].
    assert (r ∈ filter (λ r, db.has_id (next_id st) r = true) (rows st)) as Hr
      by (rewrite Hf; left).
    apply list_elem_of_filter in Hr as [Hid Hr].
    apply bool_decide_eq_true in Hid.
    by destruct (id_below_not_next st r Hall Hr). }
  rewrite filter_cons_True; [done|].
  unfold db.has_id. by apply bool_decide_eq_true.
Qed.

(** X9. Create, then read: in a well-formed store, after a POST /accounts
    that passes the media type check with a body that deserializes, the
    response shows the new id, and a GET on that id answers 200 with the
    very body of the POST response. *)
Theorem create_then_read c c' st data acct :
  store_ok st = true →
  headers (request c) !! "Content-Type" = Some "application/json" →
  payload (request c) = Parsed data →
  Account.deserialize (today c) (Account.new (today c)) data = Ok acct →
  (∃ obj, body (response_of POST_accounts c st) = BJson obj ∧
          obj !! "id" = Some (JNum (next_id st))) ∧
  response_of (GET_account (next_id st)) c' (store_after POST_accounts c st) =
    mkResponse status.HTTP_200_OK (body (response_of POST_accounts c st)) ∅.
Proof.
  intros Hok Hct Hdata Hde.
  assert (response_of POST_accounts c st =
            mkResponse status.HTTP_201_CREATED
              (BJson (Account.serialize (db.create acct st).1))
              {["Location" := "/"]} ∧
          store_after POST_accounts c st = (db.create acct st).2) as [-> ->].
  { serve_with create_accounts_run.
    rewrite decide_True by done. by rewrite Hdata, Hde. }
  cbn [body]. split.
  - eexists. split; [reflexivity|].
    by destruct (serialize_lookup (db.create acct st).1) as (-> & _).
  - unfold response_of. rewrite serve_run. cbn [view fst].
    rewrite get_account_run. cbn [fst]. by rewrite find_create.
Qed.

Lemma create_then_read_witness :
  response_of (GET_account 2) (sample_ctx None (Parsed (JOther "")))
    (store_after POST_accounts
       (sample_ctx (Some "application/json") (Parsed (JObject sample_fields)))
       sample_store) =
  mkResponse 200
    (body (response_of POST_accounts
             (sample_ctx (Some "application/json")
                (Parsed (JObject sample_fields)))
             sample_store)) ∅.
Proof.
  apply (create_then_read
           (sample_ctx (Some "application/json") (Parsed (JObject sample_fields)))
           (sample_ctx None (Parsed (JOther "")))
           sample_store (JObject sample_fields) sample_account).
  - vm_compute. reflexivity.
  - vm_compute. reflexivity.
  - reflexivity.
  - vm_compute. reflexivity.
Defined.

(** ** The tests' scenarios, for every account *)

Lemma as_body_lookup (a : Account.t) :
  omap str_of (Account.serialize a) !! "name" = Some (Account.name a) ∧
  omap str_of (Account.serialize a) !! "email" = Some (Account.email a) ∧
  omap str_of (Account.serialize a) !! "address" = Some (Account.address a) ∧
  omap str_of (Account.serialize a) !! "phone_number" =
    Some (Account.phone_number a) ∧
  omap str_of (Account.serialize a) !! "date_joined" =
    Some (date.isoformat (Account.date_joined a)).
Proof.
  destruct (serialize_lookup a) as (_ & Hn & He & Ha & Hp & Hd).
  rewrite !lookup_omap, Hn, He, Ha, Hp, Hd. done.
Qed.

(** Serialize, send, deserialize: the account comes back, under the id of
    the instance that deserializes. *)
Lemma deserialize_serialized now self a :
  dated a = true →
  Account.deserialize now self (as_body (Account.serialize a)) =
  Ok (Account.mk (Account.id self) (Account.name a) (Account.email a)
        (Account.address a) (Account.phone_number a) (Account.date_joined a)).
Proof.
  intros Hd. unfold as_body.
  destruct (as_body_lookup a) as (Hn & He & Ha & Hp & Hdj).
  rewrite (deserialize_present now self _ _ _ _ _ Hn He Ha Hp), Hdj.
  by rewrite fromisoformat_isoformat.
Qed.

(** One POST of the test client with a serialized account. *)
Lemma client_post_serialized now a st :
  dated a = true →
  response_of POST_accounts (client_json now (Account.serialize a)) st =
    mkResponse status.HTTP_201_CREATED
      (BJson (Account.serialize (with_id (next_id st) a)))
      {["Location" := "/"]} ∧
  store_after POST_accounts (client_json now (Account.serialize a)) st =
    mkStore (rows st ++ [with_id (next_id st) a]) (next_id st + 1).
Proof.
  intros Hd. serve_with create_accounts_run.
  rewrite decide_True by (by vm_compute).
  cbn [client_json request payload today].
  by rewrite (deserialize_serialized now (Account.new now) a Hd).
Qed.

(** X10. Posting an account's own serialized form, as the tests do, always
    succeeds when its date is a calendar date: the answer is 201, it carries
    a Location header, and its name, email, address, phone_number and
    date_joined (as the date's ISO string) are the account's; the id is the
    store's next one, whatever id the account had. *)
Theorem post_serialized_echo now a st :
  dated a = true →
  status_code (response_of POST_accounts (client_json now (Account.serialize a)) st)
    = status.HTTP_201_CREATED ∧
  is_Some (response_headers
             (response_of POST_accounts (client_json now (Account.serialize a)) st)
           !! "Location") ∧
  ∃ new_account,
    body (response_of POST_accounts (client_json now (Account.serialize a)) st)
      = BJson new_account ∧
    new_account !! "id" = Some (JNum (next_id st)) ∧
    new_account !! "name" = Some (JStr (Account.name a)) ∧
    new_account !! "email" = Some (JStr (Account.email a)) ∧
    new_account !! "address" = Some (JStr (Account.address a)) ∧
    new_account !! "phone_number" = Some (JStr (Account.phone_number a)) ∧
    new_account !! "date_joined" =
      Some (JStr (date.isoformat (Account.date_joined a))).
Proof.
  intros Hd. destruct (client_post_serialized now a st Hd) as [-> _].
  cbn [status_code response_headers body]. split_and!.
  - done.
  - by simplify_map_eq.
  - eexists. split; [reflexivity|].
    destruct (serialize_lookup (with_id (next_id st) a))
      as (? & ? & ? & ? & ? & ?).
    by split_and!.
Qed.

Lemma post_serialized_echo_witness :
  status_code
    (response_of POST_accounts
       (client_json sample_today (Account.serialize sample_account))
       sample_store) = 201.
Proof.
  destruct (post_serialized_echo sample_today sample_account sample_store)
    as [H _].
  - vm_compute. reflexivity.
  - exact H.
Defined.

Lemma assign_ids_length n made :
  List.length (assign_ids n made) = List.length made.
Proof.
  revert n. induction made as [|a made IH]; intros n; [done|].
  simpl. by rewrite IH.
Qed.

Lemma assign_ids_lookup n made (k : nat) a :
  made !! k = Some a → assign_ids n made !! k = Some (with_id (n + Z.of_nat k) a).
Proof.
  revert n k. induction made as [|b made IH]; intros n k Hk; [done|].
  destruct k as [|k]; simpl in *.
  - simplify_eq. by rewrite Z.add_0_r.
  - rewrite (IH (n + 1) k Hk). do 2 f_equal. lia.
Qed.

(** The bulk helper, run to the end. *)
Lemma _create_accounts_run now made st :
  Forall (λ a, dated a = true) made →
  _create_accounts now made st =
  Some (assign_ids (next_id st) made,
        mkStore (rows st ++ assign_ids (next_id st) made)
          (next_id st + Z.of_nat (List.length made))).
Proof.
  revert st. induction made as [|a made IH]; intros st Hall.
  - simpl. rewrite app_nil_r, Z.add_0_r. by destruct st.
  - apply Forall_cons in Hall as [Ha Hall].
    cbn [_create_accounts]. cbv zeta.
    destruct (client_post_serialized now a st Ha) as [-> ->].
    cbn [status_code body]. rewrite bool_decide_eq_true_2 by done.
    destruct (serialize_lookup (with_id (next_id st) a)) as [-> _].
    cbn [with_id Account.id from_option mbind option_bind set_id].
    rewrite (IH _ Hall). cbn [rows next_id assign_ids mbind option_bind].
    rewrite <- app_assoc. cbn [app List.length].
    do 3 f_equal. lia.
Qed.

(** X11. The bulk helper [_create_accounts] never trips its assertion on
    accounts whose dates are calendar dates: it returns as many accounts
    as it was given, the k-th being the k-th input under the id
    [next_id + k], and leaves the store with exactly these rows appended,
    in that order. *)
Theorem _create_accounts_consecutive now made st :
  Forall (λ a, dated a = true) made →
  ∃ accounts st',
    _create_accounts now made st = Some (accounts, st') ∧
    List.length accounts = List.length made ∧
    (∀ (k : nat) a, made !! k = Some a →
       accounts !! k = Some (with_id (next_id st + Z.of_nat k) a)) ∧
    rows st' = rows st ++ accounts ∧
    next_id st' = next_id st + Z.of_nat (List.length made).
Proof.
  intros Hall. eexists _, _. split; [by apply _create_accounts_run|].
  split_and!; try done.
  - apply assign_ids_length.
  - intros k a. apply assign_ids_lookup.
Qed.

Lemma _create_accounts_consecutive_witness :
  ∃ accounts st',
    _create_accounts sample_today [sample_account; sample_account] sample_store
      = Some (accounts, st') ∧
    List.length accounts = 2%nat ∧
    next_id st' = 4.
Proof.
  destruct (_create_accounts_consecutive sample_today
              [sample_account; sample_account] sample_store)
    as (accounts & st' & Hrun & Hlen & _ & _ & Hnext).
  - repeat constructor.
  - exists accounts, st'. split_and!; [exact Hrun|exact Hlen|exact Hnext].
Defined.

(** X12. Listing after bulk creation: starting without rows, once
    [_create_accounts] has posted its accounts, GET /accounts answers 200
    with exactly as many entries as accounts were posted, and the k-th entry
    is the k-th account's serialized form under its new id; in particular
    it shows the k-th account's name. *)
Theorem list_after_bulk_create now c made n :
  Forall (λ a, dated a = true) made →
  ∃ accounts st' items,
    _create_accounts now made (mkStore [] n) = Some (accounts, st') ∧
    status_code (response_of GET_accounts c st') = status.HTTP_200_OK ∧
    body (response_of GET_accounts c st') = BJsonList items ∧
    List.length items = List.length made ∧
    ∀ (k : nat) a, made !! k = Some a →
      items !! k = Some (Account.serialize (with_id (n + Z.of_nat k) a)) ∧
      (Account.serialize (with_id (n + Z.of_nat k) a)) !! "name" =
        Some (JStr (Account.name a)).
Proof.
  intros Hall. eexists _, _, _.
  split; [by apply _create_accounts_run|].
  serve_with list_accounts_run. cbn [fst render id status_code body rows next_id].
  split_and!; try done.
  - by rewrite length_fmap, app_nil_l, assign_ids_length.
  - intros k a Hk. split.
    + rewrite list_lookup_fmap, app_nil_l.
      by rewrite (assign_ids_lookup n made k a Hk).
    + by destruct (serialize_lookup (with_id (n + Z.of_nat k) a)) as (_ & -> & _).
Qed.

Lemma list_after_bulk_create_witness :
  ∃ accounts st' items,
    _create_accounts sample_today [sample_account; sample_account] empty_store
      = Some (accounts, st') ∧
    body (response_of GET_accounts (sample_ctx None (Parsed (JOther ""))) st')
      = BJsonList items ∧
    List.length items = 2%nat.
Proof.
  destruct (list_after_bulk_create sample_today
              (sample_ctx None (Parsed (JOther "")))
              [sample_account; sample_account] 1)
    as (accounts & st' & items & Hrun & _ & Hbody & Hlen & _).
  - repeat constructor.
  - exists accounts, st', items.
    split_and!; [exact Hrun|exact Hbody|exact Hlen].
Defined.

(** X13. Update replaces fully: on an existing id, a PUT that the
    framework takes for JSON and whose body holds name, email, address,
    phone_number and an ISO date_joined answers 200 with exactly these five
    values under the id of the path; nothing of the old row is kept, an
    "id" in the body changes nothing, and the row found under the id from
    then on is that account. *)
Theorem update_account_replaces c st i a fields n e ad p s d :
  db.find i st = Some a →
  is_json (headers (request c) !! "Content-Type") = true →
  payload (request c) = Parsed (JObject fields) →
  fields !! "name" = Some n →
  fields !! "email" = Some e →
  fields !! "address" = Some ad →
  fields !! "phone_number" = Some p →
  fields !! "date_joined" = Some s →
  date.fromisoformat s = Some d →
  response_of (PUT_account i) c st =
    mkResponse status.HTTP_200_OK
      (BJson (Account.serialize (Account.mk (Some i) n e ad p d))) ∅ ∧
  Account.serialize (Account.mk (Some i) n e ad p d) !! "date_joined" =
    Some (JStr s) ∧
  db.find i (store_after (PUT_account i) c st) =
    Some (Account.mk (Some i) n e ad p d).
Proof.
  intros Hfind Hjson Hdata Hn He Ha Hp Hs Hd.
  pose proof (find_Some_id _ _ _ Hfind) as Hid.
  assert (Account.deserialize (today c) a (JObject fields) =
            Ok (Account.mk (Some i) n e ad p d)) as Hde.
  { rewrite (deserialize_present _ _ _ _ _ _ _ Hn He Ha Hp), Hs, Hd.
    by rewrite Hid. }
  serve_with (update_account_found_run i a c st Hfind).
  rewrite (get_json_answer_json c Hjson), Hdata, Hde.
  rewrite (update_found i a (Account.mk (Some i) n e ad p d) st Hfind eq_refl).
  cbn [fst snd render id store]. split_and!.
  - done.
  - destruct (serialize_lookup (Account.mk (Some i) n e ad p d))
      as (_ & _ & _ & _ & _ & ->).
    cbn [Account.date_joined]. by rewrite (isoformat_fromisoformat s d Hd).
  - unfold db.find in *. cbn [rows].
    rewrite (find_replace i i (Account.mk (Some i) n e ad p d) _ eq_refl),
      decide_True by done.
    by rewrite Hfind.
Qed.

Lemma update_account_replaces_witness :
  response_of (PUT_account 1)
    (sample_ctx (Some "application/json")
       (Parsed (JObject (<["id" := "777"]> (<["name" := "Updated Name"]>
                                              sample_fields)))))
    sample_store =
  mkResponse 200
    (BJson (Account.serialize
              (Account.mk (Some 1) "Updated Name" "ann@example.com"
                 "1 Main St" "555-0100" (date.mk 2024 2 29)))) ∅.
Proof.
  destruct (update_account_replaces
              (sample_ctx (Some "application/json")
                 (Parsed (JObject (<["id" := "777"]> (<["name" := "Updated Name"]>
                                                        sample_fields)))))
              sample_store 1
              (Account.mk (Some 1) "Ann Lee" "ann@example.com" "1 Main St"
                 "555-0100" (date.mk 2024 2 29))
              (<["id" := "777"]> (<["name" := "Updated Name"]> sample_fields))
              "Updated Name" "ann@example.com" "1 Main St" "555-0100"
              "2024-02-29" (date.mk 2024 2 29)) as (H & _ & _).
  - vm_compute. reflexivity.
  - vm_compute. reflexivity.
  - reflexivity.
  - vm_compute. reflexivity.
  - vm_compute. reflexivity.
  - vm_compute. reflexivity.
  - vm_compute. reflexivity.
  - vm_compute. reflexivity.
  - vm_compute. reflexivity.
  - exact H.
Defined.

(** Without a JSON Content-Type the same PUT changes nothing: the
    framework turns it away, here with 400. *)
Example update_account_not_json_sample :
  status_code
    (response_of (PUT_account 1)
       (sample_ctx None
          (Parsed (JObject (<["name" := "Updated Name"]> sample_fields))))
       sample_store) = 400 ∧
  store_after (PUT_account 1)
    (sample_ctx None
       (Parsed (JObject (<["name" := "Updated Name"]> sample_fields))))
    sample_store = sample_store.
Proof. split; vm_compute; reflexivity. Qed.

(** X14. A PUT on an existing id that the framework takes for JSON and
    whose body is an object that lacks a required key is answered 400,
    naming a missing key; [update] is not called and the store, the row
    under the id included, is left as it was. *)
Theorem update_account_missing_field c st i a fields key :
  db.find i st = Some a →
  is_json (headers (request c) !! "Content-Type") = true →
  payload (request c) = Parsed (JObject fields) →
  key ∈ required_fields →
  fields !! key = None →
  ∃ k,
    k ∈ required_fields ∧ fields !! k = None ∧
    response_of (PUT_account i) c st =
      mkResponse status.HTTP_400_BAD_REQUEST
        (BText ("Invalid Account: missing " +:+ k)) ∅ ∧
    (EUpdate i ∉ calls_of (PUT_account i) c st) ∧
    store_after (PUT_account i) c st = st.
Proof.
  intros Hfind Hjson Hdata Hkey Hnone.
  destruct (deserialize_missing (today c) a fields key Hkey Hnone)
    as (k & Hk & Hkn & Hde).
  exists k. serve_with (update_account_found_run i a c st Hfind).
  rewrite (get_json_answer_json c Hjson), Hdata, Hde.
  cbn [fst snd render store trace].
  split_and!; try done. not_in_trace.
Qed.

Lemma update_account_missing_field_witness :
  ∃ k,
    k ∈ required_fields ∧
    ({["name" := "not enough data"]} : gmap string string) !! k = None ∧
    response_of (PUT_account 1)
      (sample_ctx (Some "application/json")
         (Parsed (JObject {["name" := "not enough data"]})))
      sample_store =
      mkResponse 400 (BText ("Invalid Account: missing " +:+ k)) ∅ ∧
    (EUpdate 1 ∉
       calls_of (PUT_account 1)
         (sample_ctx (Some "application/json")
            (Parsed (JObject {["name" := "not enough data"]})))
         sample_store) ∧
    store_after (PUT_account 1)
      (sample_ctx (Some "application/json")
         (Parsed (JObject {["name" := "not enough data"]})))
      sample_store = sample_store.
Proof.
  apply (update_account_missing_field
           (sample_ctx (Some "application/json")
              (Parsed (JObject {["name" := "not enough data"]})))
           sample_store 1
           (Account.mk (Some 1) "Ann Lee" "ann@example.com" "1 Main St"
              "555-0100" (date.mk 2024 2 29))
           {["name" := "not enough data"]} "address").
  - vm_compute. reflexivity.
  - vm_compute. reflexivity.
  - reflexivity.
  - apply list_elem_of_In. simpl. tauto.
  - vm_compute. reflexivity.
Defined.
